(** * The qortex vector-store adapter (src/vectorstore.ts), embedded in Rocq

    The adapter is glue between a vector-store plugin interface and a
    remote service reached through [callTool].  Every method shapes one
    argument object, performs one remote call and un-shapes the answer.
    The development below embeds the methods of [QortexVectorStore] as
    programs of a small monad that threads the adapter instance ([this])
    and the log of remote calls, and answers each call by asking a
    [Service], which stands for the remote process.

    Conventions.
    - JavaScript objects whose values are [unknown]/[any] on the
      TypeScript side are finite maps from property names to [JSValue]s.
    - Answers of the service are taken at the type the source asserts with
      [as T] right after each [callTool]: the assertion is unchecked in
      TypeScript, the embedding follows the static types.
    - JavaScript numbers are carried as rationals; the adapter never
      computes with them, it only forwards them.
    - [await] is sequencing: one call is in flight at a time.
    - The transport is taken to deliver an answer to every call and the
      embedding provider to be a total function: what is proved about a
      call that is made, or about a value that is returned, presupposes
      that the provider and the transport got that far.  Whether
      connecting succeeds is the client's business and is taken as
      given. *)

From Stdlib Require Import QArith_base.
From stdpp Require Import base strings gmap list.

Set Warnings "-register-all".
Local Open Scope string_scope.

(* ===================================================================== *)
(** ** JavaScript values                                                  *)
(* ===================================================================== *)

Module JS.

Inductive JSValue : Type :=
| JSUndefined
| JSNull
| JSBool (b : bool)
| JSNum (q : Q)
| JSStr (s : string)
| JSArr (l : list JSValue)
| JSObj (o : gmap string JSValue).

(** [Record<string, unknown>] *)
Abbreviation JSObject := (gmap string JSValue).

(** [o.k]: reading a property that is not there gives [undefined]. *)
Definition get (k : string) (o : JSObject) : JSValue :=
  default JSUndefined (o !! k).

(** [{ k1: v1, ..., kn: vn }]: a later binding of a key replaces an
    earlier one. *)
Definition object (fields : list (string * JSValue)) : JSObject :=
  fold_left (fun o kv => <[kv.1 := kv.2]> o) fields ∅.

(** [{ ...o, ...more }]: the properties spread later win. *)
Definition spread (o more : JSObject) : JSObject := more ∪ o.

(** [Boolean(v)] *)
Definition truthy (v : JSValue) : bool :=
  match v with
  | JSUndefined | JSNull => false
  | JSBool b => b
  | JSNum q => negb (Z.eqb (Qnum q) 0)
  | JSStr s => negb (String.eqb s EmptyString)
  | JSArr _ | JSObj _ => true
  end.

(** [Boolean(s)] for [s : string | undefined] (or [string | null]) *)
Definition truthy_string (s : option string) : bool :=
  match s with
  | Some s => negb (String.eqb s EmptyString)
  | None => false
  end.

(** [v ?? d] *)
Definition nullish (v d : JSValue) : JSValue :=
  match v with
  | JSUndefined | JSNull => d
  | _ => v
  end.

(** [typeof v === "number"] *)
Definition is_number (v : JSValue) : bool :=
  match v with JSNum _ => true | _ => false end.

(** [xs.includes(x)] on an array of strings *)
Definition includes (x : string) (xs : list string) : bool :=
  existsb (String.eqb x) xs.

(** A [string[]] as a value. *)
Definition strings (xs : list string) : JSValue := JSArr (JSStr <$> xs).

(** A [number[]] and a [number[][]] as values. *)
Definition numbers (xs : list Q) : JSValue := JSArr (JSNum <$> xs).
Definition vectors (vs : list (list Q)) : JSValue := JSArr (numbers <$> vs).

(** [x ?? undefined] for an optional argument already absent as [None]. *)
Definition optional {A} (inj : A -> JSValue) (x : option A) : JSValue :=
  from_option inj JSUndefined x.

End JS.
Import JS.

(* ===================================================================== *)
(** ** String conversion                                                  *)
(* ===================================================================== *)

(** The decimal digits of a natural number, without leading zeros. *)
Fixpoint digits_from (fuel : nat) (n : N) (acc : string) : string :=
  match fuel with
  | O => acc
  | S fuel' =>
      let acc' := String (Ascii.ascii_of_N (48 + n mod 10)) acc in
      if (n / 10 =? 0)%N then acc' else digits_from fuel' (n / 10) acc'
  end.

Definition digits (n : N) : string :=
  digits_from (S (N.to_nat (N.log2 n))) n EmptyString.

(** The least [j] (up to the fuel) for which [a * 10^j / b] is a whole
    number, with that number. *)
Fixpoint scale_to_integer (fuel : nat) (a b : N) (j : nat) : N * nat :=
  if (a mod b =? 0)%N then ((a / b)%N, j)
  else
    match fuel with
    | O => ((a / b)%N, j)
    | S fuel' => scale_to_integer fuel' (a * 10)%N b (S j)
    end.

(** The character 0. *)
Definition zero_char : Ascii.ascii := Ascii.ascii_of_N 48.

Definition zeros (n : nat) : string :=
  String.string_of_list_ascii (replicate n zero_char).

Fixpoint drop_leading_zeros (l : list Ascii.ascii) : list Ascii.ascii :=
  match l with
  | c :: rest =>
      if bool_decide (c = zero_char) then drop_leading_zeros rest else l
  | [] => []
  end.

(** [s] without its trailing zeros. *)
Definition strip_trailing_zeros (s : string) : string :=
  String.string_of_list_ascii
    (rev (drop_leading_zeros (rev (String.list_ascii_of_string s)))).

(** [Number.prototype.toString()], following the language standard: with
    [s] the significant digits of the number, [k] their count and [n] the
    position of the decimal point, the number is written in positional
    notation when [-6 < n <= 21] and with an exponent otherwise.  The
    digits are those of the decimal fraction the rational stands for,
    which are the digits the engine prints for every number a double
    holds to 15 significant digits. *)
Definition number_toString (q : Q) : string :=
  if (Qnum q =? 0)%Z then "0"
  else
    let sign := if (Qnum q <? 0)%Z then "-" else EmptyString in
    let '(m, j) := scale_to_integer 1100 (Z.abs_N (Qnum q)) (Npos (Qden q)) 0 in
    let all := digits m in
    let s := strip_trailing_zeros all in
    let k := Z.of_nat (String.length s) in
    let n := (Z.of_nat (String.length all) - Z.of_nat j)%Z in
    let body :=
      if ((k <=? n) && (n <=? 21))%Z then
        s +:+ zeros (Z.to_nat (n - k))
      else if ((0 <? n) && (n <=? 21))%Z then
        String.substring 0 (Z.to_nat n) s +:+ "." +:+
        String.substring (Z.to_nat n) (Z.to_nat (k - n)) s
      else if ((-6 <? n) && (n <=? 0))%Z then
        "0." +:+ zeros (Z.to_nat (- n)) +:+ s
      else
        let e := (n - 1)%Z in
        (if (k =? 1)%Z then s
         else String.substring 0 1 s +:+ "." +:+ String.substring 1 (Z.to_nat (k - 1)) s)
        +:+ "e" +:+ (if (0 <=? e)%Z then "+" else "-")
        +:+ digits (Z.abs_N e) in
    sign +:+ body.

(** [String(v)], which for a value that is neither null nor undefined is
    also [v.toString()]: a string is itself, an array is its elements
    joined by commas with null and undefined elements left empty, a plain
    object is "[object Object]". *)
Fixpoint toString (v : JSValue) : string :=
  match v with
  | JSUndefined => "undefined"
  | JSNull => "null"
  | JSBool b => if b then "true" else "false"
  | JSNum q => number_toString q
  | JSStr s => s
  | JSArr l =>
      String.concat ","
        ((fix elements (l : list JSValue) : list string :=
            match l with
            | [] => []
            | x :: rest =>
                match x with
                | JSUndefined | JSNull => EmptyString
                | _ => toString x
                end :: elements rest
            end) l)
  | JSObj _ => "[object Object]"
  end.

(* ===================================================================== *)
(** ** Data shapes                                                        *)
(* ===================================================================== *)

(** The plugin interface's document: content, metadata, optional id.

    [pageContent] is declared [string] and kept at the type of values:
    callers of the insert operations supply [JSStr] contents, and the
    documents the searches build hold [JSStr] contents. *)
Record Document : Type := new_Document {
  pageContent : JSValue;
  metadata : JSObject;
  id : option string
}.

(** [options?: { ids?: string[] }] *)
Record AddOptions : Type := { ids : option (list string) }.

(** [{ ids?: string[]; error?: string }], the asserted answer of the
    upsert. *)
Record UpsertResult : Type := {
  upsert_ids : option (list string);
  upsert_error : option string
}.

(** One element of [results] in the asserted answer of the vector query. *)
Record VectorItem : Type := {
  vi_id : string;
  vi_score : Q;
  vi_metadata : option JSObject
}.

(** [{ results?: Array<...>; error?: string }] *)
Record VectorQueryResult : Type := {
  vq_results : option (list VectorItem);
  vq_error : option string
}.

(** Modelled from the spec: [QortexQueryItem] of types.ts, which is not
    among the sources.  "Query result item: identifier, content text, a
    relevance score (float), a domain label, a graph node identifier, and
    an open metadata mapping". *)
Record QortexQueryItem : Type := {
  item_id : string;
  item_content : string;
  item_score : Q;
  item_domain : string;
  item_node_id : string;
  item_metadata : JSObject
}.

(** Modelled from the spec: [QortexRule] of types.ts.  "Rule: identifier,
    text, domain, category, confidence, relevance, derivation kind, list
    of source concept identifiers, open metadata".  The adapter reads
    [source_concepts] with [?.], so the list may be missing. *)
Record QortexRule : Type := {
  rule_id : string;
  rule_text : string;
  rule_domain : string;
  rule_category : string;
  rule_confidence : Q;
  rule_relevance : Q;
  rule_derivation : string;
  rule_source_concepts : option (list string);
  rule_metadata : JSObject
}.

(** Modelled from the spec: [QortexQueryResult] of types.ts.  The adapter
    reads [items], [query_id] and [rules], each defensively ([??], [?.]).
    [qr_error] is the error field the service may put on any answer
    (spec, section 7); no line of [similaritySearchWithScore] reads it. *)
Record QortexQueryResult : Type := {
  qr_items : option (list QortexQueryItem);
  qr_query_id : option string;
  qr_rules : option (list QortexRule);
  qr_error : option string
}.

(** [ExploreResult & { node: unknown }], [RulesResult] and
    [FeedbackResult] are handed back as received: plain objects. *)
Abbreviation ExploreResult := JSObject (only parsing).
Abbreviation RulesResult := JSObject (only parsing).
Abbreviation FeedbackResult := JSObject (only parsing).

(** Modelled from the spec: [FeedbackOutcome] of types.ts, an "outcome
    label (e.g., accepted/rejected)". *)
Abbreviation FeedbackOutcome := string (only parsing).

(** The options object of [getRules]. *)
Record RulesOptions : Type := {
  domains : option (list string);
  conceptIds : option (list string);
  categories : option (list string);
  includeDerived : option bool;
  minConfidence : option Q
}.

(** [new Error(message)] *)
Record Error : Type := new_Error { message : string }.

(* ===================================================================== *)
(** ** The remote service and the monad of adapter methods                *)
(* ===================================================================== *)

(** The remote operations the adapter invokes, each indexed by the type
    its answer is asserted to have. *)
Inductive Tool : Type -> Type :=
| qortex_vector_upsert : Tool UpsertResult
| qortex_vector_query : Tool VectorQueryResult
| qortex_query : Tool QortexQueryResult
| qortex_explore : Tool ExploreResult
| qortex_rules : Tool RulesResult
| qortex_feedback : Tool FeedbackResult.

(** The operation name that goes on the wire. *)
Definition tool_name {R} (t : Tool R) : string :=
  match t with
  | qortex_vector_upsert => "qortex_vector_upsert"
  | qortex_vector_query => "qortex_vector_query"
  | qortex_query => "qortex_query"
  | qortex_explore => "qortex_explore"
  | qortex_rules => "qortex_rules"
  | qortex_feedback => "qortex_feedback"
  end.

(** One remote call as the client sees it: [callTool(name, args)]. *)
Record Call : Type := { name : string; arguments : JSObject }.

(** The remote process: given the calls made so far, it answers the next
    one.  Nothing is assumed about it. *)
Definition Service : Type :=
  forall R, list Call -> Tool R -> JSObject -> R.

(** The adapter instance: the private fields of the class. *)
Record QortexVectorStore : Type := {
  embeddings : list JSValue -> list (list Q);
  indexName : string;
  domain : string;
  feedbackSource : string;
  _lastQueryId : option string
}.

(** [QortexVectorStoreConfig], without the transport settings. *)
Record QortexVectorStoreConfig : Type := {
  cfg_indexName : option string;
  cfg_domain : option string;
  cfg_feedbackSource : option string
}.

(** What a method run can see and change: the instance and the log of
    remote calls, oldest first. *)
Record World : Type := { this : QortexVectorStore; calls : list Call }.

Inductive Outcome (A : Type) : Type :=
| Returned (a : A)
| Thrown (e : Error).
Arguments Returned {A} a.
Arguments Thrown {A} e.

(** An [async] method body. *)
Definition M (A : Type) : Type := Service -> World -> Outcome A * World.

Definition ret {A} (a : A) : M A := fun _ w => (Returned a, w).

Definition bind {A B} (m : M A) (k : A -> M B) : M B :=
  fun svc w =>
    match m svc w with
    | (Returned a, w') => k a svc w'
    | (Thrown e, w') => (Thrown e, w')
    end.

Definition throw {A} (e : Error) : M A := fun _ w => (Thrown e, w).

Declare Scope method_scope.
Delimit Scope method_scope with method.
Notation "x <- m ;; k" := (bind m (fun x => k))
  (at level 100, m at next level, right associativity) : method_scope.
Notation "m ;;; k" := (bind m (fun _ => k))
  (at level 100, right associativity) : method_scope.

(** Reading a field of [this]. *)
Definition read {A} (field : QortexVectorStore -> A) : M A :=
  fun _ w => (Returned (field (this w)), w).

(** [this._lastQueryId = q] *)
Definition set_lastQueryId (q : option string) : M unit :=
  fun _ w =>
    (Returned tt,
     {| this := {| embeddings := embeddings (this w);
                   indexName := indexName (this w);
                   domain := domain (this w);
                   feedbackSource := feedbackSource (this w);
                   _lastQueryId := q |};
        calls := calls w |}).

(** [await this.mcp.callTool(name, args)]: the call is logged and the
    service's answer comes back. *)
Definition callTool {R} (t : Tool R) (args : JSObject) : M R :=
  fun svc w =>
    (Returned (svc R (calls w) t args),
     {| this := this w;
        calls := calls w ++ [{| name := tool_name t; arguments := args |}] |}).

(* ===================================================================== *)
(** ** The methods of [QortexVectorStore]                                 *)
(* ===================================================================== *)

Local Open Scope method_scope.

(** [constructor(embeddings, config = {})] *)
Definition constructor (embed : list JSValue -> list (list Q))
    (config : QortexVectorStoreConfig) : QortexVectorStore :=
  {| embeddings := embed;
     indexName := default "default" (cfg_indexName config);
     domain := default "default" (cfg_domain config);
     feedbackSource := default "langchain" (cfg_feedbackSource config);
     _lastQueryId := None |}.

(** [get lastQueryId()] *)
Definition lastQueryId : M (option string) := read _lastQueryId.

(** [xs.filter(Boolean) as string[]] on the documents' optional ids. *)
Definition filter_Boolean (xs : list (option string)) : list string :=
  omap (fun x => if truthy_string x then x else None) xs.

(** [{ text: doc.pageContent, ...doc.metadata }], the [map] callback of
    [addVectors]. *)
Definition document_metadata (doc : Document) : JSObject :=
  spread (object [("text", pageContent doc)]) (metadata doc).

(** The argument object of the upsert, as [addVectors] builds it. *)
Definition upsert_arguments (index : string) (vecs : list (list Q))
    (documents : list Document) (options : option AddOptions) : JSObject :=
  let metadata_array := document_metadata <$> documents in
  let ids_list :=
    match options ≫= ids with
    | Some given => given
    | None => filter_Boolean (id <$> documents)
    end in
  object [("index_name", JSStr index);
          ("vectors", vectors vecs);
          ("metadata", JSArr (JSObj <$> metadata_array));
          ("ids", if (0 <? length ids_list)%nat then strings ids_list
                  else JSUndefined)].

Definition addVectors (vecs : list (list Q)) (documents : list Document)
    (options : option AddOptions) : M (option (list string)) :=
  index <- read indexName ;;
  result <- callTool qortex_vector_upsert
              (upsert_arguments index vecs documents options) ;;
  if truthy_string (upsert_error result)
  then throw (new_Error (default EmptyString (upsert_error result)))
  else ret (upsert_ids result).

(** The embedding provider is read as a function that returns: a provider
    that fails makes [addDocuments] fail before any remote call. *)
Definition addDocuments (documents : list Document)
    (options : option AddOptions) : M (option (list string)) :=
  let texts := pageContent <$> documents in
  embedDocuments <- read embeddings ;;
  addVectors (embedDocuments texts) documents options.

(** What [new Document] keeps of the [pageContent] it is handed: the
    constructor of the plugin interface's document class stores
    [pageContent.toString()].  The assertion [text as string] of the
    vector search is unchecked, so the value handed over there is
    whatever the service stored under "text". *)
Definition kept_content (content : JSValue) : JSValue :=
  JSStr (toString content).

(** The body of the [map] callback of the vector search. *)
Definition vector_item_to_pair (item : VectorItem) : Document * Q :=
  let md := default ∅ (vi_metadata item) in
  let text := get "text" md in
  let meta := delete "text" md in
  let doc :=
    new_Document (kept_content (nullish text (JSStr EmptyString)))
                 (<["score" := JSNum (vi_score item)]> meta)
                 (Some (vi_id item)) in
  (doc, vi_score item).

(** The argument object of the vector query. *)
Definition vector_query_arguments (index : string) (query : list Q) (k : Q)
    (filter : option JSObject) : JSObject :=
  object [("index_name", JSStr index);
          ("query_vector", numbers query);
          ("top_k", JSNum k);
          ("filter", optional JSObj filter);
          ("include_vector", JSBool false)].

Definition similaritySearchVectorWithScore (query : list Q) (k : Q)
    (filter : option JSObject) : M (list (Document * Q)) :=
  index <- read indexName ;;
  result <- callTool qortex_vector_query
              (vector_query_arguments index query k filter) ;;
  if truthy_string (vq_error result)
  then throw (new_Error (default EmptyString (vq_error result)))
  else ret (vector_item_to_pair <$> default [] (vq_results result)).

(** [{ id: r.id, text: r.text, relevance: r.relevance }] *)
Definition reduced_rule (r : QortexRule) : JSValue :=
  JSObj (object [("id", JSStr (rule_id r));
                 ("text", JSStr (rule_text r));
                 ("relevance", JSNum (rule_relevance r))]).

(** [r.source_concepts?.includes(node_id)], as the [filter] callback
    uses it. *)
Definition rule_includes (node_id : string) (r : QortexRule) : bool :=
  match rule_source_concepts r with
  | Some concepts => includes node_id concepts
  | None => false
  end.

(** The body of the [map] callback of the text search. *)
Definition query_item_to_pair (result : QortexQueryResult)
    (item : QortexQueryItem) : Document * Q :=
  let meta :=
    spread (object [("score", JSNum (item_score item));
                    ("domain", JSStr (item_domain item));
                    ("node_id", JSStr (item_node_id item))])
           (item_metadata item) in
  let meta :=
    match qr_rules result with
    | Some rules =>
        if (0 <? length rules)%nat then
          let linkedRules :=
            reduced_rule <$>
              List.filter (rule_includes (item_node_id item)) rules in
          if (0 <? length linkedRules)%nat
          then <["rules" := JSArr linkedRules]> meta
          else meta
        else meta
    | None => meta
    end in
  (new_Document (JSStr (item_content item)) meta (Some (item_id item)),
   item_score item).

(** The argument object of the text query. *)
Definition query_arguments (dom : string) (query : string) (k : Q)
    (filter : option JSObject) : JSObject :=
  let filter_domains := from_option (get "domains") JSUndefined filter in
  let domains_value :=
    if truthy filter_domains then filter_domains else strings [dom] in
  let filter_min := from_option (get "min_confidence") JSUndefined filter in
  let minConfidence_value :=
    if is_number filter_min then filter_min else JSNum (0 # 1) in
  object [("context", JSStr query);
          ("domains", domains_value);
          ("top_k", JSNum k);
          ("min_confidence", minConfidence_value);
          ("mode", JSStr "auto")].

Definition similaritySearchWithScore (query : string) (k : option Q)
    (filter : option JSObject) : M (list (Document * Q)) :=
  let k := default (4 # 1) k in
  dom <- read domain ;;
  result <- callTool qortex_query (query_arguments dom query k filter) ;;
  set_lastQueryId (qr_query_id result) ;;;
  ret (query_item_to_pair result <$> default [] (qr_items result)).

Definition similaritySearch (query : string) (k : option Q)
    (filter : option JSObject) : M (list Document) :=
  let k := default (4 # 1) k in
  docsAndScores <- similaritySearchWithScore query (Some k) filter ;;
  ret (fst <$> docsAndScores).

(** [v === null] *)
Definition is_null (v : JSValue) : bool :=
  match v with JSNull => true | _ => false end.

(** The argument object of the explore call. *)
Definition explore_arguments (nodeId : string) (depth : Q) : JSObject :=
  object [("node_id", JSStr nodeId); ("depth", JSNum depth)].

Definition explore (nodeId : string) (depth : option Q)
    : M (option ExploreResult) :=
  let depth := default (1 # 1) depth in
  result <- callTool qortex_explore (explore_arguments nodeId depth) ;;
  if is_null (get "node" result) then ret None else ret (Some result).

(** The argument object of the rules call. *)
Definition rules_arguments (options : RulesOptions) : JSObject :=
  object [("domains", optional strings (domains options));
          ("concept_ids", optional strings (conceptIds options));
          ("categories", optional strings (categories options));
          ("include_derived", JSBool (default true (includeDerived options)));
          ("min_confidence",
           JSNum (default (0 # 1) (minConfidence options)))].

Definition getRules (options : RulesOptions) : M RulesResult :=
  result <- callTool qortex_rules (rules_arguments options) ;;
  ret result.

(** The argument object of the feedback call. *)
Definition feedback_arguments (query_id : option string)
    (outcomes : gmap string FeedbackOutcome) (source : string) : JSObject :=
  object [("query_id", from_option JSStr JSNull query_id);
          ("outcomes", JSObj (JSStr <$> outcomes));
          ("source", JSStr source)].

Definition feedback (outcomes : gmap string FeedbackOutcome)
    : M (option FeedbackResult) :=
  last <- read _lastQueryId ;;
  if negb (truthy_string last) then ret None
  else
    source <- read feedbackSource ;;
    result <- callTool qortex_feedback
                (feedback_arguments last outcomes source) ;;
    ret (Some result).

(* ===================================================================== *)
(** ** Sessions: the public operations as a caller issues them            *)
(* ===================================================================== *)

(** One public operation with its arguments. *)
Inductive Operation : Type :=
| AddVectors (vecs : list (list Q)) (documents : list Document)
             (options : option AddOptions)
| AddDocuments (documents : list Document) (options : option AddOptions)
| SimilaritySearchVectorWithScore (query : list Q) (k : Q)
                                  (filter : option JSObject)
| SimilaritySearchWithScore (query : string) (k : option Q)
                            (filter : option JSObject)
| SimilaritySearch (query : string) (k : option Q)
                   (filter : option JSObject)
| Explore (nodeId : string) (depth : option Q)
| GetRules (options : RulesOptions)
| Feedback (outcomes : gmap string FeedbackOutcome)
| LastQueryId.

(** The text-level searches. *)
Definition is_text_search (op : Operation) : bool :=
  match op with
  | SimilaritySearchWithScore _ _ _ | SimilaritySearch _ _ _ => true
  | _ => false
  end.

(** The world after an operation has settled, whether it returned or
    threw: the caller goes on with the same instance. *)
Definition after (op : Operation) (svc : Service) (w : World) : World :=
  match op with
  | AddVectors v d o => (addVectors v d o svc w).2
  | AddDocuments d o => (addDocuments d o svc w).2
  | SimilaritySearchVectorWithScore q k f =>
      (similaritySearchVectorWithScore q k f svc w).2
  | SimilaritySearchWithScore q k f =>
      (similaritySearchWithScore q k f svc w).2
  | SimilaritySearch q k f => (similaritySearch q k f svc w).2
  | Explore n d => (explore n d svc w).2
  | GetRules o => (getRules o svc w).2
  | Feedback o => (feedback o svc w).2
  | LastQueryId => (lastQueryId svc w).2
  end.

(** The world after one more logged call. *)
Definition logged (w : World) (n : string) (args : JSObject) : World :=
  {| this := this w;
     calls := calls w ++ [{| name := n; arguments := args |}] |}.

(** A sequence of operations, first to last. *)
Definition session (ops : list Operation) (svc : Service) (w : World)
    : World :=
  fold_left (fun w op => after op svc w) ops w.

(** The answer the service gives to the text query that a text-level
    search issues from world [w]. *)
Definition query_answer (svc : Service) (w : World) (query : string)
    (k : option Q) (filter : option JSObject) : QortexQueryResult :=
  svc _ (calls w) qortex_query
      (query_arguments (domain (this w)) query (default (4 # 1) k) filter).

(** The query issued by a text-level operation, if it is one. *)
Definition text_search_answer (op : Operation) (svc : Service) (w : World)
    : option QortexQueryResult :=
  match op with
  | SimilaritySearchWithScore q k f | SimilaritySearch q k f =>
      Some (query_answer svc w q k f)
  | _ => None
  end.

(* ===================================================================== *)
(** ** Notions of the specification                                       *)
(* ===================================================================== *)

(** "rules whose source-concepts list contains a result's node id" *)
Definition linked (item : QortexQueryItem) (r : QortexRule) : Prop :=
  exists concepts,
    rule_source_concepts r = Some concepts /\ item_node_id item ∈ concepts.

(** A rule "reduced to {id, text, relevance}": an object with these three
    properties and no other. *)
Definition is_reduction_of (r : QortexRule) (v : JSValue) : Prop :=
  exists o,
    v = JSObj o /\
    o !! "id" = Some (JSStr (rule_id r)) /\
    o !! "text" = Some (JSStr (rule_text r)) /\
    o !! "relevance" = Some (JSNum (rule_relevance r)) /\
    forall k, k <> "id" -> k <> "text" -> k <> "relevance" -> o !! k = None.

(** A document "carries an id of its own" when its id is a non-empty
    string. *)
Definition has_own_id (doc : Document) : Prop :=
  exists i, id doc = Some i /\ i <> EmptyString.

(** The ids the documents carry themselves, in document order. *)
Definition own_ids (docs : list Document) : list string :=
  omap (fun doc =>
          match id doc with
          | Some i => if decide (i = EmptyString) then None else Some i
          | None => None
          end) docs.

(* ===================================================================== *)
(** ** Test fixtures                                                      *)
(* ===================================================================== *)

(** A service that gives the same answer to every call of a tool, like
    the mocked client of the unit tests. *)
Definition mock (u : UpsertResult) (v : VectorQueryResult)
    (q : QortexQueryResult) (e r f : JSObject) : Service :=
  fun R _ t _ =>
    match t in Tool R return R with
    | qortex_vector_upsert => u
    | qortex_vector_query => v
    | qortex_query => q
    | qortex_explore => e
    | qortex_rules => r
    | qortex_feedback => f
    end.

Definition no_upsert : UpsertResult :=
  {| upsert_ids := None; upsert_error := None |}.
Definition no_results : VectorQueryResult :=
  {| vq_results := None; vq_error := None |}.
Definition no_items : QortexQueryResult :=
  {| qr_items := None; qr_query_id := None; qr_rules := None;
     qr_error := None |}.

(** The store of the unit tests: index "test-index", domain "security". *)
Definition test_store : QortexVectorStore :=
  constructor (fun texts => (fun _ => [1 # 1; 0 # 1]) <$> texts)
    {| cfg_indexName := Some "test-index";
       cfg_domain := Some "security";
       cfg_feedbackSource := None |}.

Definition fresh : World := {| this := test_store; calls := [] |}.

(** The documents of the "upserts vectors with metadata" unit test. *)
Definition doc_oauth : Document :=
  new_Document (JSStr "OAuth2 auth") {["source" := JSStr "docs"]} None.
Definition doc_jwt : Document :=
  new_Document (JSStr "JWT tokens") {["source" := JSStr "docs"]} None.

(** A document whose metadata has a "text" property of its own. *)
Definition doc_with_text : Document :=
  new_Document (JSStr "page content")
               {["text" := JSStr "metadata text"]} None.

(** A document that carries its own id. *)
Definition doc_with_id : Document :=
  new_Document (JSStr "OAuth2 auth") ∅ (Some "d1").

Definition unit_vectors : list (list Q) := [[1 # 1; 0 # 1]; [0 # 1; 1 # 1]].

(** A service that confirms the ids ["v1"; "v2"]. *)
Definition confirming_service : Service :=
  mock {| upsert_ids := Some ["v1"; "v2"]; upsert_error := None |}
       no_results no_items ∅ ∅ ∅.

(** A service that assigns an id of its own choosing. *)
Definition assigning_service : Service :=
  mock {| upsert_ids := Some ["srv-1"]; upsert_error := None |}
       no_results no_items ∅ ∅ ∅.

(** The answer of the "throws on error" unit tests, on each tool. *)
Definition erroring_service : Service :=
  mock {| upsert_ids := None; upsert_error := Some "Dimension mismatch" |}
       {| vq_results := None; vq_error := Some "Index not found" |}
       {| qr_items := None; qr_query_id := None; qr_rules := None;
          qr_error := Some "Index not found" |}
       ∅ ∅ ∅.

(** An upsert answered with ids and an error field holding the empty
    string. *)
Definition empty_error_service : Service :=
  mock {| upsert_ids := Some ["v1"]; upsert_error := Some EmptyString |}
       no_results no_items ∅ ∅ ∅.

(** The text query is answered with the identifier "q-1" the first time
    and with no identifier afterwards; feedback is acknowledged. *)
Definition forgetful_service : Service :=
  fun R history t _ =>
    match t in Tool R return R with
    | qortex_vector_upsert => no_upsert
    | qortex_vector_query => no_results
    | qortex_query =>
        {| qr_items := Some [];
           qr_query_id := match history with [] => Some "q-1" | _ => None end;
           qr_rules := Some [];
           qr_error := None |}
    | qortex_explore => ∅
    | qortex_rules => ∅
    | qortex_feedback => {["status" := JSStr "recorded"]}
    end.

Definition accept_i1 : gmap string string := {["i-1" := "accepted"]}.

(** The item and the rule of the "linked rules" unit test. *)
Definition item_oauth : QortexQueryItem :=
  {| item_id := "i-1"; item_content := "OAuth2 framework";
     item_score := 94 # 100; item_domain := "security";
     item_node_id := "sec:oauth"; item_metadata := ∅ |}.

Definition rule_oauth : QortexRule :=
  {| rule_id := "rule:oauth"; rule_text := "Use OAuth2 for API access";
     rule_domain := "security"; rule_category := "security";
     rule_confidence := 1 # 1; rule_relevance := 94 # 100;
     rule_derivation := "explicit";
     rule_source_concepts := Some ["sec:oauth"]; rule_metadata := ∅ |}.

(** An item on another node, whose own metadata has a "rules" property. *)
Definition item_rbac : QortexQueryItem :=
  {| item_id := "i-2"; item_content := "RBAC";
     item_score := 60 # 100; item_domain := "security";
     item_node_id := "sec:rbac";
     item_metadata := {["rules" := JSStr "see handbook"]} |}.

Definition linked_rules_service : Service :=
  mock no_upsert no_results
       {| qr_items := Some [item_oauth; item_rbac];
          qr_query_id := Some "q-abc";
          qr_rules := Some [rule_oauth];
          qr_error := None |}
       ∅ ∅ {["status" := JSStr "recorded"]}.






(** The answers of the explore unit tests: a found node, and
    [{ node: null }]. *)
Definition node_oauth : JSObject :=
  {["id" := JSStr "sec:oauth"; "name" := JSStr "OAuth2"]}.

Definition found_service : Service :=
  mock no_upsert no_results no_items
       {["node" := JSObj node_oauth; "edges" := JSArr [];
         "neighbors" := JSArr []; "rules" := JSArr []]}
       ∅ ∅.

Definition missing_service : Service :=
  mock no_upsert no_results no_items {["node" := JSNull]} ∅ ∅.

(** An answer without any "node" property. *)
Definition nodeless_service : Service :=
  mock no_upsert no_results no_items {["edges" := JSArr []]} ∅ ∅.

(** Two text searches against the forgetful service. *)
Definition after_first_search : World :=
  after (SimilaritySearchWithScore "authentication" None None)
        forgetful_service fresh.
Definition after_second_search : World :=
  after (SimilaritySearchWithScore "authorization" None None)
        forgetful_service after_first_search.

(** The session of the lifecycle unit test up to the feedback: a text
    search, then an explore. *)
Definition after_search_and_explore : World :=
  session [SimilaritySearch "auth" None None; Explore "sec:oauth" None]
          linked_rules_service fresh.

(** Whether a rule is linked to an item can be decided. *)
#[global] Instance linked_dec (item : QortexQueryItem) (r : QortexRule) :
  Decision (linked item r).
Proof.
  unfold linked. destruct (rule_source_concepts r) as [concepts|].
  - destruct (decide (item_node_id item ∈ concepts)) as [Hin|Hout].
    + left. by exists concepts.
    + right. intros (c & [= <-] & Hc). by apply Hout.
  - right. by intros (c & [=] & _).
Defined.

(* ===================================================================== *)
(** ** The static factories and the embeddings wrapper                    *)
(* ===================================================================== *)

(** Modelled from the spec: [connect] of client.ts, which is not among the
    sources.  It "establishes the connection" to the service and invokes
    no remote operation; a connection failure "propagates unmodified".
    Whether it succeeds is the transport's doing: its outcome is a
    parameter. *)
Definition connect (connection : Outcome unit) : M unit :=
  fun _ w => (connection, w).

(** [metadatas: object[] | object] *)
Inductive Metadatas : Type :=
| MetadataArray (metas : list JSObject)
| MetadataObject (meta : JSObject).

(** The documents [fromTexts] builds: [metaArray] is the array given, or
    the one object repeated for every text; [metaArray[i]] past the end
    of the array is undefined, which leaves the document without
    metadata properties. *)
Definition texts_to_documents (texts : list string) (metadatas : Metadatas)
    : list Document :=
  let metaArray :=
    match metadatas with
    | MetadataArray metas => metas
    | MetadataObject meta => (fun _ => meta) <$> texts
    end in
  imap (fun i text =>
          new_Document (JSStr text) (default ∅ (metaArray !! i)) None)
       texts.

(** A static factory runs on the instance it has just constructed, whose
    client has made no call yet, and hands that instance back. *)
Definition fromDocuments (docs : list Document)
    (embed : list JSValue -> list (list Q))
    (config : QortexVectorStoreConfig) (connection : Outcome unit)
    : Service -> Outcome QortexVectorStore * World :=
  fun svc =>
    (connect connection ;;;
     addDocuments docs None ;;;
     read (fun store => store))
      svc {| this := constructor embed config; calls := [] |}.

Definition fromTexts (texts : list string) (metadatas : Metadatas)
    (embed : list JSValue -> list (list Q))
    (config : QortexVectorStoreConfig) (connection : Outcome unit)
    : Service -> Outcome QortexVectorStore * World :=
  fun svc =>
    (connect connection ;;;
     addDocuments (texts_to_documents texts metadatas) None ;;;
     read (fun store => store))
      svc {| this := constructor embed config; calls := [] |}.

(** [_vectorstoreType()] *)
Definition _vectorstoreType : string := "qortex".

Module QortexEmbeddings.

(** [model: { embed(texts: string[]): number[][] }] *)
Definition Model : Type := list string -> list (list Q).

Definition embedDocuments (model : Model) (texts : list string)
    : list (list Q) :=
  model texts.

(** [result[0]], undefined when the model gave back no vector. *)
Definition embedQuery (model : Model) (text : string) : option (list Q) :=
  let result := model [text] in
  result !! 0%nat.

End QortexEmbeddings.

(** The remote operation behind each public operation; the getter has
    none. *)
Definition tool_of (op : Operation) : option string :=
  match op with
  | AddVectors _ _ _ | AddDocuments _ _ => Some "qortex_vector_upsert"
  | SimilaritySearchVectorWithScore _ _ _ => Some "qortex_vector_query"
  | SimilaritySearchWithScore _ _ _ | SimilaritySearch _ _ _ =>
      Some "qortex_query"
  | Explore _ _ => Some "qortex_explore"
  | GetRules _ => Some "qortex_rules"
  | Feedback _ => Some "qortex_feedback"
  | LastQueryId => None
  end.

(** The entry of the log that a feedback with outcomes [o] writes from
    world [w]. *)
Definition feedback_call (w : World) (o : gmap string string) : Call :=
  {| name := "qortex_feedback";
     arguments := feedback_arguments (_lastQueryId (this w)) o
                                     (feedbackSource (this w)) |}.

(** Fixtures: a model that embeds every text as the same vector, and a
    connection that could not be established. *)
Definition constant_model : QortexEmbeddings.Model :=
  fun texts => (fun _ => [1 # 2; 1 # 2]) <$> texts.

Definition refused : Outcome unit := Thrown (new_Error "Connection closed").

Definition default_config : QortexVectorStoreConfig :=
  {| cfg_indexName := None; cfg_domain := None; cfg_feedbackSource := None |}.

(** A stored entry coming back from the vector query: the metadata of
    [doc_oauth] as the upsert sent it. *)
Definition stored_oauth : VectorItem :=
  {| vi_id := "v1"; vi_score := 95 # 100;
     vi_metadata := Some (document_metadata doc_oauth) |}.

Definition stored_with_text : VectorItem :=
  {| vi_id := "v2"; vi_score := 80 # 100;
     vi_metadata := Some (document_metadata doc_with_text) |}.

Definition stored_service : Service :=
  mock no_upsert
       {| vq_results := Some [stored_oauth; stored_with_text];
          vq_error := None |}
       no_items ∅ ∅ ∅.

(** An item whose own metadata has a "score" property. *)
Definition item_with_score : QortexQueryItem :=
  {| item_id := "i-3"; item_content := "JWT";
     item_score := 85 # 100; item_domain := "security";
     item_node_id := "sec:jwt";
     item_metadata := {["score" := JSStr "high"]} |}.

Definition scored_service : Service :=
  mock no_upsert no_results
       {| qr_items := Some [item_with_score]; qr_query_id := Some "q-1";
          qr_rules := None; qr_error := None |}
       ∅ ∅ ∅.

(* ===================================================================== *)
(** ** Basic facts about values and objects                               *)
(* ===================================================================== *)

Lemma truthy_string_true (s : option string) :
  truthy_string s = true <-> exists m, s = Some m /\ m <> EmptyString.
Proof.
  destruct s as [m|]; simpl.
  - rewrite negb_true_iff, String.eqb_neq. split.
    + intros Hm. exists m. by split.
    + intros (m' & [= <-] & Hm). done.
  - split; [done|]. by intros (m & ? & _).
Qed.

Lemma truthy_string_false (s : option string) :
  truthy_string s = false <-> s = None \/ s = Some EmptyString.
Proof.
  destruct s as [m|]; simpl.
  - rewrite negb_false_iff, String.eqb_eq. split.
    + intros ->. by right.
    + intros [|[= ->]]; done.
  - split; [by left|done].
Qed.

Lemma includes_elem_of (x : string) (xs : list string) :
  includes x xs = true <-> x ∈ xs.
Proof.
  unfold includes. rewrite existsb_exists. split.
  - intros (y & Hin & Heq). apply String.eqb_eq in Heq. subst y.
    by apply list_elem_of_In.
  - intros Hin. exists x. split; [by apply list_elem_of_In|].
    apply String.eqb_refl.
Qed.

Lemma spread_lookup (o more : JSObject) (k : string) :
  spread o more !! k =
  match more !! k with Some v => Some v | None => o !! k end.
Proof.
  unfold spread. destruct (more !! k) as [v|] eqn:Hk.
  - by apply lookup_union_Some_l.
  - by apply lookup_union_r.
Qed.

Lemma document_metadata_lookup (doc : Document) (k : string) :
  document_metadata doc !! k =
  match metadata doc !! k with
  | Some v => Some v
  | None => if decide (k = "text") then Some (pageContent doc) else None
  end.
Proof.
  unfold document_metadata. rewrite spread_lookup.
  destruct (metadata doc !! k); [done|].
  unfold object; simpl. rewrite lookup_insert.
  destruct (decide ("text" = k)), (decide (k = "text")); by subst.
Qed.

Lemma filter_Boolean_nil (xs : list (option string)) :
  filter_Boolean xs = [] <-> Forall (fun x => x = None \/ x = Some EmptyString) xs.
Proof.
  induction xs as [|x xs IH]; simpl.
  - split; [constructor|done].
  - destruct (truthy_string x) eqn:Hx.
    + apply truthy_string_true in Hx as (m & -> & Hm). simpl. split; [done|].
      intros Hall. apply Forall_cons in Hall as [[|[= ->]] _]; done.
    + apply truthy_string_false in Hx. simpl. rewrite IH. split.
      * intros. by constructor.
      * intros Hall. by apply Forall_cons in Hall as [_ ?].
Qed.

(* ===================================================================== *)
(** ** What one run of each method does                                   *)
(* ===================================================================== *)

Lemma addVectors_run (svc : Service) w vecs docs opts :
  let args := upsert_arguments (indexName (this w)) vecs docs opts in
  let result := svc _ (calls w) qortex_vector_upsert args in
  addVectors vecs docs opts svc w =
  ((if truthy_string (upsert_error result)
    then Thrown (new_Error (default EmptyString (upsert_error result)))
    else Returned (upsert_ids result)),
   logged w "qortex_vector_upsert" args).
Proof.
  intros args result. unfold addVectors, bind, read, callTool; simpl.
  fold args. fold result. by destruct (truthy_string (upsert_error result)).
Qed.

Lemma addDocuments_run (svc : Service) w docs opts :
  addDocuments docs opts svc w =
  addVectors (embeddings (this w) (pageContent <$> docs)) docs opts svc w.
Proof. reflexivity. Qed.

Lemma similaritySearchVectorWithScore_run (svc : Service) w query k filter :
  let args := vector_query_arguments (indexName (this w)) query k filter in
  let result := svc _ (calls w) qortex_vector_query args in
  similaritySearchVectorWithScore query k filter svc w =
  ((if truthy_string (vq_error result)
    then Thrown (new_Error (default EmptyString (vq_error result)))
    else Returned (vector_item_to_pair <$> default [] (vq_results result))),
   logged w "qortex_vector_query" args).
Proof.
  intros args result.
  unfold similaritySearchVectorWithScore, bind, read, callTool; simpl.
  fold args. fold result. by destruct (truthy_string (vq_error result)).
Qed.

(** The instance with a new last query id. *)
Lemma similaritySearchWithScore_run (svc : Service) w query k filter :
  let args :=
    query_arguments (domain (this w)) query (default (4 # 1) k) filter in
  let result := query_answer svc w query k filter in
  similaritySearchWithScore query k filter svc w =
  (Returned (query_item_to_pair result <$> default [] (qr_items result)),
   {| this := {| embeddings := embeddings (this w);
                 indexName := indexName (this w);
                 domain := domain (this w);
                 feedbackSource := feedbackSource (this w);
                 _lastQueryId := qr_query_id result |};
      calls := calls w ++ [{| name := "qortex_query"; arguments := args |}] |}).
Proof. reflexivity. Qed.

Lemma similaritySearch_run (svc : Service) w query k filter :
  similaritySearch query k filter svc w =
  (Returned (fst <$> (query_item_to_pair (query_answer svc w query k filter)
                        <$> default [] (qr_items (query_answer svc w query k filter)))),
   (similaritySearchWithScore query k filter svc w).2).
Proof. by destruct k. Qed.

Lemma explore_run (svc : Service) w nodeId depth :
  let args := explore_arguments nodeId (default (1 # 1) depth) in
  let result := svc _ (calls w) qortex_explore args in
  explore nodeId depth svc w =
  ((if is_null (get "node" result) then Returned None
    else Returned (Some result)),
   logged w "qortex_explore" args).
Proof.
  intros args result. unfold explore, bind, callTool; simpl.
  fold args. fold result. by destruct (is_null (get "node" result)).
Qed.

Lemma getRules_run (svc : Service) w options :
  getRules options svc w =
  (Returned (svc _ (calls w) qortex_rules (rules_arguments options)),
   logged w "qortex_rules" (rules_arguments options)).
Proof. reflexivity. Qed.

Lemma feedback_run (svc : Service) w outcomes :
  let args :=
    feedback_arguments (_lastQueryId (this w)) outcomes
                       (feedbackSource (this w)) in
  feedback outcomes svc w =
  if truthy_string (_lastQueryId (this w))
  then (Returned (Some (svc _ (calls w) qortex_feedback args)),
        logged w "qortex_feedback" args)
  else (Returned None, w).
Proof.
  intros args. unfold feedback, bind, read, callTool; simpl.
  by destruct (truthy_string (_lastQueryId (this w))).
Qed.

(* ===================================================================== *)
(** ** The instance across operations                                     *)
(* ===================================================================== *)

(** Every operation other than a text-level search leaves the instance as
    it was, whether it returns or throws. *)
Lemma after_frame (svc : Service) (w : World) (op : Operation) :
  is_text_search op = false -> this (after op svc w) = this w.
Proof.
  destruct op; try discriminate; intros _; cbn [after].
  - by rewrite addVectors_run.
  - by rewrite addDocuments_run, addVectors_run.
  - by rewrite similaritySearchVectorWithScore_run.
  - by rewrite explore_run.
  - by rewrite getRules_run.
  - rewrite feedback_run.
    by destruct (truthy_string (_lastQueryId (this w))).
  - done.
Qed.

Lemma session_frame (svc : Service) (ops : list Operation) (w : World) :
  Forall (fun op => is_text_search op = false) ops ->
  this (session ops svc w) = this w.
Proof.
  revert w. induction ops as [|op ops IH]; intros w Hops; [done|].
  apply Forall_cons in Hops as [Hop Hops]. simpl.
  change (this (session ops svc (after op svc w)) = this w).
  rewrite IH by done. by apply after_frame.
Qed.

(** A text-level search leaves the configuration alone and stores the
    query identifier of its answer. *)
Lemma after_text_search (svc : Service) (w : World) (op : Operation)
    (answer : QortexQueryResult) :
  text_search_answer op svc w = Some answer ->
  this (after op svc w) =
  {| embeddings := embeddings (this w);
     indexName := indexName (this w);
     domain := domain (this w);
     feedbackSource := feedbackSource (this w);
     _lastQueryId := qr_query_id answer |}.
Proof.
  destruct op; try discriminate; intros [= <-]; cbn [after].
  - by rewrite similaritySearchWithScore_run.
  - by rewrite similaritySearch_run, similaritySearchWithScore_run.
Qed.

(** C8: the last query identifier is written by the text-level searches
    only.  After a text-level search it is the query identifier of that
    search's answer (null when the answer has none) and the getter
    returns it; every other operation (addVectors, addDocuments, the
    vector search, explore, getRules, feedback, the getter) leaves it
    unchanged.  No operation changes the index name, the domain or the
    feedback source. *)
Theorem last_query_id_single_writer (svc : Service) (w : World)
    (op : Operation) :
  let w' := after op svc w in
  indexName (this w') = indexName (this w) /\
  domain (this w') = domain (this w) /\
  feedbackSource (this w') = feedbackSource (this w) /\
  match text_search_answer op svc w with
  | Some answer =>
      is_text_search op = true /\
      _lastQueryId (this w') = qr_query_id answer /\
      lastQueryId svc w' = (Returned (qr_query_id answer), w')
  | None =>
      is_text_search op = false /\
      _lastQueryId (this w') = _lastQueryId (this w)
  end.
Proof.
  intros w'. subst w'.
  destruct (text_search_answer op svc w) as [answer|] eqn:Hanswer.
  - rewrite (after_text_search _ _ _ _ Hanswer); simpl.
    repeat split; try done.
    + by destruct op.
    + unfold lastQueryId, read.
      by rewrite (after_text_search _ _ _ _ Hanswer).
  - assert (is_text_search op = false) as Hop by by destruct op.
    by rewrite (after_frame _ _ _ Hop).
Qed.

(* ===================================================================== *)
(** ** Error-bearing answers                                              *)
(* ===================================================================== *)

(** C1, as stated, fails.  The text-level search has no check of the
    answer's error field: on the answer [{ error: "Index not found" }] it
    returns the empty list and stores a null query identifier, where the
    vector search raises "Index not found" on the same answer.  And an
    error field that holds the empty string is not raised by the upsert
    either: the ids of the answer are returned. *)
Lemma error_field_not_always_raised :
  qr_error (query_answer erroring_service fresh "authentication" None None)
  = Some "Index not found" /\
  (similaritySearchWithScore "authentication" None None
     erroring_service fresh).1 = Returned [] /\
  _lastQueryId
    (this (similaritySearchWithScore "authentication" None None
             erroring_service fresh).2) = None /\
  (similaritySearchVectorWithScore [1 # 1; 0 # 1] (2 # 1) None
     erroring_service fresh).1 = Thrown (new_Error "Index not found") /\
  (addVectors [[1 # 1; 0 # 1]] [doc_oauth] None
     empty_error_service fresh).1 = Returned (Some ["v1"]).
Proof. by repeat split. Qed.

(** C1, amended: whenever the answer to the upsert or to the vector query
    carries a non-empty error text, the operation that issued the call
    (addVectors, addDocuments through it, and
    similaritySearchVectorWithScore) fails by throwing an error whose
    message is that text. *)
Theorem error_text_is_thrown (svc : Service) (w : World) (msg : string) :
  msg <> EmptyString ->
  (forall vecs docs options,
     upsert_error
       (svc _ (calls w) qortex_vector_upsert
          (upsert_arguments (indexName (this w)) vecs docs options))
     = Some msg ->
     (addVectors vecs docs options svc w).1 = Thrown (new_Error msg)) /\
  (forall docs options,
     upsert_error
       (svc _ (calls w) qortex_vector_upsert
          (upsert_arguments (indexName (this w))
             (embeddings (this w) (pageContent <$> docs)) docs options))
     = Some msg ->
     (addDocuments docs options svc w).1 = Thrown (new_Error msg)) /\
  (forall query k filter_,
     vq_error
       (svc _ (calls w) qortex_vector_query
          (vector_query_arguments (indexName (this w)) query k filter_))
     = Some msg ->
     (similaritySearchVectorWithScore query k filter_ svc w).1
     = Thrown (new_Error msg)).
Proof.
  intros Hmsg.
  assert (truthy_string (Some msg) = true) as Htruthy.
  { apply truthy_string_true. by exists msg. }
  repeat split.
  - intros vecs docs options Herr. rewrite addVectors_run; simpl.
    by rewrite Herr, Htruthy.
  - intros docs options Herr. rewrite addDocuments_run, addVectors_run; simpl.
    by rewrite Herr, Htruthy.
  - intros query k filter_ Herr.
    rewrite similaritySearchVectorWithScore_run; simpl.
    by rewrite Herr, Htruthy.
Qed.

(** The amended C1 on the "throws on error response" unit test. *)
Lemma error_text_is_thrown_witness :
  "Dimension mismatch" <> EmptyString /\
  (addVectors [[1 # 1; 0 # 1]] [doc_oauth] None erroring_service fresh).1
  = Thrown (new_Error "Dimension mismatch").
Proof.
  split; [discriminate|].
  apply (proj1 (error_text_is_thrown erroring_service fresh
                  "Dimension mismatch" ltac:(discriminate))).
  reflexivity.
Defined.

(* ===================================================================== *)
(** ** Feedback                                                           *)
(* ===================================================================== *)

Lemma feedback_arguments_lookup (q : option string)
    (outcomes : gmap string string) (source : string) :
  let args := feedback_arguments q outcomes source in
  args !! "query_id" = Some (from_option JSStr JSNull q) /\
  args !! "outcomes" = Some (JSObj (JSStr <$> outcomes)) /\
  args !! "source" = Some (JSStr source) /\
  forall key, key <> "query_id" -> key <> "outcomes" -> key <> "source" ->
    args !! key = None.
Proof.
  repeat split. intros key H1 H2 H3.
  unfold feedback_arguments, object; simpl.
  by rewrite !lookup_insert_ne.
Qed.

(** C2, as stated, fails: the first search produced the identifier "q-1",
    the second search's answer had none, and the feedback that follows
    returns null without any remote call: the log still holds the two
    queries only. *)
Lemma feedback_after_search_without_id :
  _lastQueryId (this after_first_search) = Some "q-1" /\
  feedback accept_i1 forgetful_service after_second_search
  = (Returned None, after_second_search) /\
  name <$> calls after_second_search = ["qortex_query"; "qortex_query"].
Proof. by repeat split. Qed.

(** C2, amended: feedback goes by the most recent text-level search.
    On an instance that has run no text-level search, and after a
    text-level search whose answer had no query identifier (or an empty
    one), feedback returns null and issues no remote call.  After a
    text-level search whose answer had the non-empty identifier [q],
    followed by any operations that are not text-level searches,
    feedback issues exactly one remote call, [qortex_feedback], whose
    arguments are [q] under "query_id", the supplied outcomes under
    "outcomes" and the configured feedback source under "source", and it
    returns the service's acknowledgment as it is. *)
Theorem feedback_follows_last_text_search (svc : Service)
    (outcomes : gmap string string) :
  (forall embed config history ops,
     Forall (fun op => is_text_search op = false) ops ->
     let w := session ops svc {| this := constructor embed config;
                                 calls := history |} in
     feedback outcomes svc w = (Returned None, w)) /\
  (forall w0 search answer ops,
     text_search_answer search svc w0 = Some answer ->
     Forall (fun op => is_text_search op = false) ops ->
     let w := session (search :: ops) svc w0 in
     match qr_query_id answer with
     | Some q =>
         if decide (q = EmptyString) then feedback outcomes svc w = (Returned None, w)
         else
           exists args,
             feedback outcomes svc w =
             (Returned (Some (svc _ (calls w) qortex_feedback args)),
              logged w "qortex_feedback" args) /\
             args !! "query_id" = Some (JSStr q) /\
             args !! "outcomes" = Some (JSObj (JSStr <$> outcomes)) /\
             args !! "source" = Some (JSStr (feedbackSource (this w0))) /\
             forall key,
               key <> "query_id" -> key <> "outcomes" -> key <> "source" ->
               args !! key = None
     | None => feedback outcomes svc w = (Returned None, w)
     end).
Proof.
  split.
  - intros embed config history ops Hops w.
    rewrite feedback_run. subst w. by rewrite session_frame.
  - intros w0 search answer ops Hsearch Hops w.
    assert (this w =
            {| embeddings := embeddings (this w0);
               indexName := indexName (this w0);
               domain := domain (this w0);
               feedbackSource := feedbackSource (this w0);
               _lastQueryId := qr_query_id answer |}) as Hthis.
    { subst w. change (session (search :: ops) svc w0)
        with (session ops svc (after search svc w0)).
      rewrite session_frame by done. by apply after_text_search. }
    rewrite feedback_run, Hthis; simpl.
    destruct (qr_query_id answer) as [q|]; [|done]. simpl.
    destruct (decide (q = EmptyString)) as [->|Hq]; [done|].
    apply String.eqb_neq in Hq. rewrite Hq; simpl.
    eexists. split; [done|].
    apply (feedback_arguments_lookup (Some q)).
Qed.

(** The amended C2 on the unit test's session: a search answered with
    "q-abc", an explore, then feedback. *)
Lemma feedback_follows_last_text_search_witness :
  exists args,
    feedback accept_i1 linked_rules_service after_search_and_explore =
    (Returned (Some {["status" := JSStr "recorded"]}),
     logged after_search_and_explore "qortex_feedback" args) /\
    args !! "query_id" = Some (JSStr "q-abc") /\
    args !! "source" = Some (JSStr "langchain").
Proof.
  destruct (proj2 (feedback_follows_last_text_search
                     linked_rules_service accept_i1)
              fresh (SimilaritySearch "auth" None None)
              (query_answer linked_rules_service fresh "auth" None None)
              [Explore "sec:oauth" None])
    as (args & Hrun & Hid & _ & Hsource & _).
  - reflexivity.
  - repeat constructor.
  - exists args. repeat split; assumption.
Defined.

(* ===================================================================== *)
(** ** Text-level search: linked rules                                    *)
(* ===================================================================== *)

Lemma rule_includes_linked (item : QortexQueryItem) (r : QortexRule) :
  rule_includes (item_node_id item) r = true <-> linked item r.
Proof.
  unfold rule_includes, linked.
  destruct (rule_source_concepts r) as [concepts|].
  - rewrite includes_elem_of. split.
    + intros Hin. by exists concepts.
    + by intros (c & [= <-] & Hin).
  - split; [done|]. by intros (c & [=] & _).
Qed.

(** The [filter] of the source selects the linked rules, in order. *)
Lemma filter_rule_includes (item : QortexQueryItem) (rules : list QortexRule) :
  List.filter (rule_includes (item_node_id item)) rules
  = filter (linked item) rules.
Proof.
  induction rules as [|r rules IH]; [done|]. simpl.
  rewrite filter_cons, IH.
  destruct (rule_includes (item_node_id item) r) eqn:Hr.
  - apply rule_includes_linked in Hr. by rewrite decide_True.
  - rewrite decide_False; [done|].
    intros Hl. apply rule_includes_linked in Hl. congruence.
Qed.

Lemma reduced_rule_is_reduction (r : QortexRule) :
  is_reduction_of r (reduced_rule r).
Proof.
  eexists. split; [done|]. repeat split.
  intros key H1 H2 H3. unfold object; simpl. by rewrite !lookup_insert_ne.
Qed.

Lemma query_item_meta_rules (result : QortexQueryResult)
    (item : QortexQueryItem) :
  let doc := (query_item_to_pair result item).1 in
  let matching := filter (linked item) (default [] (qr_rules result)) in
  metadata doc !! "rules" =
  match matching with
  | [] => item_metadata item !! "rules"
  | _ => Some (JSArr (reduced_rule <$> matching))
  end.
Proof.
  intros doc matching. subst doc matching.
  assert (forall o : JSObject,
            spread (object [("score", JSNum (item_score item));
                            ("domain", JSStr (item_domain item));
                            ("node_id", JSStr (item_node_id item))]) o
              !! "rules" = o !! "rules") as Hbase.
  { intros o. rewrite spread_lookup. by destruct (o !! "rules"). }
  unfold query_item_to_pair; cbn [fst metadata].
  destruct (qr_rules result) as [rules|]; cbn [default from_option Datatypes.id];
    [|by rewrite Hbase].
  destruct rules as [|r rules].
  { change (0 <? length (@nil QortexRule))%nat with false; cbv iota.
    by rewrite Hbase. }
  change (0 <? length (r :: rules))%nat with true; cbv iota.
  rewrite filter_rule_includes.
  destruct (filter (linked item) (r :: rules)) as [|m ms];
    cbn [fmap list_fmap length Nat.ltb Nat.leb].
  - by rewrite Hbase.
  - by rewrite lookup_insert_eq.
Qed.

(** C3, as stated, fails: the second item of the answer is linked to no
    rule, yet its document has a "rules" property, the one its own
    metadata came with. *)
Lemma unlinked_item_keeps_own_rules_key :
  exists doc1 doc2,
    (similaritySearchWithScore "OAuth2 auth" None None
       linked_rules_service fresh).1
    = Returned [(doc1, 94 # 100); (doc2, 60 # 100)] /\
    filter (linked item_rbac) [rule_oauth] = [] /\
    metadata doc2 !! "rules" = Some (JSStr "see handbook").
Proof. do 2 eexists. by repeat split. Qed.

(** C3, amended: a text-level search returns one document per item of the
    answer, in order, each paired with the item's score.  A document
    whose item is linked to at least one rule has under "rules" exactly
    the linked rules, in the order of the answer, each reduced to the
    three properties id, text and relevance.  For an item linked to no
    rule the adapter adds no "rules" property: the document has one only
    if the item's own metadata had it, with that value. *)
Theorem linked_rules_attached (svc : Service) (w : World) (query : string)
    (k : option Q) (filter_ : option JSObject) :
  let answer := query_answer svc w query k filter_ in
  let items := default [] (qr_items answer) in
  let rules := default [] (qr_rules answer) in
  exists out,
    (similaritySearchWithScore query k filter_ svc w).1 = Returned out /\
    length out = length items /\
    forall i item,
      items !! i = Some item ->
      exists doc,
        out !! i = Some (doc, item_score item) /\
        match filter (linked item) rules with
        | [] => metadata doc !! "rules" = item_metadata item !! "rules"
        | matching =>
            exists reduced,
              metadata doc !! "rules" = Some (JSArr reduced) /\
              Forall2 is_reduction_of matching reduced
        end.
Proof.
  intros answer items rules. rewrite similaritySearchWithScore_run.
  fold answer. fold items. eexists. split; [done|].
  split; [by rewrite length_fmap|].
  intros i item Hitem.
  exists (query_item_to_pair answer item).1. split.
  - rewrite list_lookup_fmap, Hitem. done.
  - pose proof (query_item_meta_rules answer item) as Hrules.
    simpl in Hrules. fold rules in Hrules.
    destruct (filter (linked item) rules) as [|m ms]; [done|].
    eexists. split; [exact Hrules|].
    apply Forall2_fmap_r, Forall_Forall2_diag, Forall_forall.
    intros r _. apply reduced_rule_is_reduction.
Qed.

(** The amended C3 on the answer of the unit test: the first item is
    linked to the one rule. *)
Lemma linked_rules_attached_witness :
  exists out doc reduced,
    (similaritySearchWithScore "OAuth2 auth" None None
       linked_rules_service fresh).1 = Returned out /\
    out !! 0%nat = Some (doc, 94 # 100) /\
    metadata doc !! "rules" = Some (JSArr reduced) /\
    Forall2 is_reduction_of [rule_oauth] reduced.
Proof.
  destruct (linked_rules_attached linked_rules_service fresh
              "OAuth2 auth" None None) as (out & Hrun & _ & Hitems).
  destruct (Hitems 0%nat item_oauth eq_refl) as (doc & Hdoc & Hrules).
  destruct Hrules as (reduced & Hkey & Hreduced).
  exists out, doc, reduced. repeat split; assumption.
Defined.

(* ===================================================================== *)
(** ** Insertion: the arguments of the upsert                             *)
(* ===================================================================== *)

Lemma upsert_arguments_lookup (index : string) (vecs : list (list Q))
    (docs : list Document) (options : option AddOptions) :
  let args := upsert_arguments index vecs docs options in
  let ids_list :=
    default (filter_Boolean (id <$> docs)) (options ≫= ids) in
  args !! "index_name" = Some (JSStr index) /\
  args !! "vectors" = Some (vectors vecs) /\
  args !! "metadata" = Some (JSArr (JSObj <$> (document_metadata <$> docs))) /\
  args !! "ids" = Some (match ids_list with
                        | [] => JSUndefined
                        | _ => strings ids_list
                        end).
Proof.
  intros args ids_list. repeat split.
  subst args ids_list. unfold upsert_arguments, object; simpl.
  rewrite lookup_insert_eq.
  by destruct (options ≫= ids) as [[|i given]|];
    [| |destruct (filter_Boolean (id <$> docs))].
Qed.

Lemma filter_Boolean_own_ids (docs : list Document) :
  filter_Boolean (id <$> docs) = own_ids docs.
Proof.
  induction docs as [|doc docs IH]; [done|].
  change (filter_Boolean (id <$> doc :: docs)) with
    (match (if truthy_string (id doc) then id doc else None) with
     | Some i => i :: filter_Boolean (id <$> docs)
     | None => filter_Boolean (id <$> docs)
     end).
  rewrite IH. unfold own_ids; cbn [omap list_omap].
  destruct (id doc) as [i|]; simpl; [|done].
  destruct (decide (i = EmptyString)) as [->|Hi]; [done|].
  apply String.eqb_neq in Hi. by rewrite Hi.
Qed.

Lemma own_ids_nil (docs : list Document) :
  own_ids docs = [] <-> Forall (fun doc => ~ has_own_id doc) docs.
Proof.
  induction docs as [|doc docs IH].
  - split; [constructor|done].
  - rewrite Forall_cons, <- IH. unfold own_ids, has_own_id; cbn [omap list_omap].
    destruct (id doc) as [i|] eqn:Hid; simpl.
    + destruct (decide (i = EmptyString)) as [->|Hi]; simpl.
      * split; [|by intros [_ ?]].
        intros Hnil. split; [|done]. intros (j & Hj & Hne). congruence.
      * split; [done|]. intros [Hdoc _]. destruct Hdoc. by exists i.
    + split; [|by intros [_ ?]].
      intros Hnil. split; [|done]. intros (j & Hj & _). congruence.
Qed.

(** C9: a document whose metadata has a "text" property of its own is
    sent with that property: its entry in the upsert's metadata array is
    the document's metadata as it is, so "text" holds the metadata's value
    and the page content is nowhere in the entry. *)
Theorem metadata_text_overrides_content (svc : Service) (w : World)
    (vecs : list (list Q)) (docs : list Document)
    (options : option AddOptions) (i : nat) (doc : Document)
    (text : JSValue) :
  docs !! i = Some doc ->
  metadata doc !! "text" = Some text ->
  exists args entries entry,
    (addVectors vecs docs options svc w).2
    = logged w "qortex_vector_upsert" args /\
    args !! "metadata" = Some (JSArr entries) /\
    entries !! i = Some (JSObj entry) /\
    entry !! "text" = Some text /\
    entry = metadata doc.
Proof.
  intros Hdoc Htext. rewrite addVectors_run; simpl.
  exists (upsert_arguments (indexName (this w)) vecs docs options).
  exists (JSObj <$> (document_metadata <$> docs)), (document_metadata doc).
  assert (document_metadata doc = metadata doc) as Hentry.
  { apply map_eq. intros key. rewrite document_metadata_lookup.
    destruct (metadata doc !! key) eqn:Hkey; [done|].
    destruct (decide (key = "text")) as [->|]; [congruence|done]. }
  split; [done|]. split; [apply upsert_arguments_lookup|].
  split; [by rewrite !list_lookup_fmap, Hdoc|].
  split; [by rewrite Hentry|done].
Qed.

(** C9 on a document with content "page content" and metadata
    [{ text: "metadata text" }]. *)
Lemma metadata_text_overrides_content_witness :
  exists args entries,
    (addVectors [[1 # 1; 0 # 1]] [doc_with_text] None
       confirming_service fresh).2
    = logged fresh "qortex_vector_upsert" args /\
    args !! "metadata" = Some (JSArr entries) /\
    entries !! 0%nat = Some (JSObj {["text" := JSStr "metadata text"]}).
Proof.
  destruct (metadata_text_overrides_content confirming_service fresh
              [[1 # 1; 0 # 1]] [doc_with_text] None 0 doc_with_text
              (JSStr "metadata text") eq_refl eq_refl)
    as (args & entries & entry & Hrun & Hmeta & Hentry & _ & ->).
  by exists args, entries.
Defined.

(** C4, as stated, fails on both counts: the service answers with an id
    of its own and that one is returned, not the id supplied; and the
    entry of a document whose metadata has a "text" property does not
    hold the document's content. *)
Lemma explicit_id_not_returned_content_not_folded :
  (addVectors [[1 # 1; 0 # 1]] [doc_with_text] (Some {| ids := Some ["d1"] |})
     assigning_service fresh).1 = Returned (Some ["srv-1"]) /\
  pageContent doc_with_text = JSStr "page content" /\
  upsert_arguments "test-index" [[1 # 1; 0 # 1]] [doc_with_text]
                   (Some {| ids := Some ["d1"] |}) !! "metadata"
  = Some (JSArr [JSObj {["text" := JSStr "metadata text"]}]).
Proof. by repeat split. Qed.

(** C4, amended: addVectors with explicit identifiers issues one upsert
    whose "ids" are the identifiers supplied, in order (undefined when
    the list is empty), and whose "metadata" array has one entry per
    document, in order; an entry has every property of the document's
    metadata, and the document's content under "text" when the metadata
    has no "text" of its own.  Unless the answer carries an error, the
    call returns the identifiers of the service's answer as they are:
    the supplied ones whenever the service confirms them. *)
Theorem addVectors_with_explicit_ids (svc : Service) (w : World)
    (vecs : list (list Q)) (docs : list Document) (given : list string) :
  let options := Some {| ids := Some given |} in
  let args := upsert_arguments (indexName (this w)) vecs docs options in
  let answer := svc _ (calls w) qortex_vector_upsert args in
  let run := addVectors vecs docs options svc w in
  run.2 = logged w "qortex_vector_upsert" args /\
  args !! "ids" = Some (match given with
                        | [] => JSUndefined
                        | _ => strings given
                        end) /\
  (exists entries,
     args !! "metadata" = Some (JSArr (JSObj <$> entries)) /\
     length entries = length docs /\
     forall i doc,
       docs !! i = Some doc ->
       exists entry,
         entries !! i = Some entry /\
         (forall key, key <> "text" -> entry !! key = metadata doc !! key) /\
         entry !! "text" =
           Some (default (pageContent doc) (metadata doc !! "text"))) /\
  (truthy_string (upsert_error answer) = false ->
   run.1 = Returned (upsert_ids answer)) /\
  (upsert_error answer = None -> upsert_ids answer = Some given ->
   run.1 = Returned (Some given)).
Proof.
  intros options args answer run. subst run.
  rewrite addVectors_run; simpl. fold options args answer.
  split; [done|].
  split; [apply (upsert_arguments_lookup _ vecs docs options)|].
  split.
  - exists (document_metadata <$> docs).
    split; [apply upsert_arguments_lookup|].
    split; [by rewrite length_fmap|].
    intros i doc Hdoc. exists (document_metadata doc).
    split; [by rewrite list_lookup_fmap, Hdoc|].
    split.
    + intros key Hkey. rewrite document_metadata_lookup.
      destruct (metadata doc !! key); [done|]. by rewrite decide_False.
    + rewrite document_metadata_lookup.
      by destruct (metadata doc !! "text").
  - split.
    + by intros ->.
    + by intros -> ->.
Qed.

(** The amended C4 on the "upserts vectors with metadata" unit test. *)
Lemma addVectors_with_explicit_ids_witness :
  (addVectors unit_vectors [doc_oauth; doc_jwt]
     (Some {| ids := Some ["v1"; "v2"] |}) confirming_service fresh).1
  = Returned (Some ["v1"; "v2"]).
Proof.
  apply (addVectors_with_explicit_ids confirming_service fresh unit_vectors
           [doc_oauth; doc_jwt] ["v1"; "v2"]); reflexivity.
Defined.

(** C6, as stated, fails: no ids option is given, the one document
    carries the id "d1", and the upsert is sent with the identifier list
    ["d1"]. *)
Lemma ids_omitted_document_id_sent :
  exists args,
    (addVectors [[1 # 1; 0 # 1]] [doc_with_id] None
       confirming_service fresh).2
    = logged fresh "qortex_vector_upsert" args /\
    args !! "ids" = Some (JSArr [JSStr "d1"]).
Proof. eexists. by split. Qed.

(** C6, amended: when the ids option is omitted, addVectors and
    addDocuments fall back on the ids the documents carry.  If no
    document carries a non-empty id, the "ids" property of the upsert's
    arguments is undefined, not an empty list; otherwise it is the list
    of the documents' own non-empty ids, in document order. *)
Theorem ids_omitted_falls_back_on_document_ids (svc : Service) (w : World)
    (vecs : list (list Q)) (docs : list Document)
    (options : option AddOptions) :
  options ≫= ids = None ->
  exists args args',
    (addVectors vecs docs options svc w).2
    = logged w "qortex_vector_upsert" args /\
    (addDocuments docs options svc w).2
    = logged w "qortex_vector_upsert" args' /\
    args' !! "ids" = args !! "ids" /\
    (Forall (fun doc => ~ has_own_id doc) docs ->
     args !! "ids" = Some JSUndefined) /\
    (Exists has_own_id docs ->
     own_ids docs <> [] /\ args !! "ids" = Some (strings (own_ids docs))).
Proof.
  intros Hoptions.
  exists (upsert_arguments (indexName (this w)) vecs docs options).
  exists (upsert_arguments (indexName (this w))
            (embeddings (this w) (pageContent <$> docs)) docs options).
  split; [by rewrite addVectors_run|].
  split; [by rewrite addDocuments_run, addVectors_run|].
  pose proof (upsert_arguments_lookup (indexName (this w)) vecs docs options)
    as (_ & _ & _ & Hids).
  pose proof (upsert_arguments_lookup (indexName (this w))
                (embeddings (this w) (pageContent <$> docs)) docs options)
    as (_ & _ & _ & Hids').
  rewrite Hoptions, filter_Boolean_own_ids in Hids, Hids'. simpl in Hids, Hids'.
  split; [by rewrite Hids, Hids'|].
  split.
  - intros Hnone. apply own_ids_nil in Hnone. by rewrite Hids, Hnone.
  - intros Hsome.
    assert (own_ids docs <> []) as Hne.
    { intros Hnil. apply own_ids_nil in Hnil.
      apply Exists_exists in Hsome as (doc & Hin & Hdoc).
      rewrite Forall_forall in Hnil. by apply (Hnil doc). }
    split; [done|]. rewrite Hids. by destruct (own_ids docs).
Qed.

(** The amended C6 on the "auto-generates ids" unit test: one document
    without id, no options. *)
Lemma ids_omitted_falls_back_on_document_ids_witness :
  exists args,
    (addVectors [[1 # 1; 0 # 1]] [doc_oauth] None confirming_service fresh).2
    = logged fresh "qortex_vector_upsert" args /\
    args !! "ids" = Some JSUndefined.
Proof.
  destruct (ids_omitted_falls_back_on_document_ids confirming_service fresh
              [[1 # 1; 0 # 1]] [doc_oauth] None eq_refl)
    as (args & args' & Hrun & _ & _ & Hnone & _).
  exists args. split; [exact Hrun|]. apply Hnone.
  constructor; [|constructor]. intros (i & Hi & _). discriminate Hi.
Defined.

(* ===================================================================== *)
(** ** Vector search                                                      *)
(* ===================================================================== *)




(* ===================================================================== *)
(** ** Explore                                                            *)
(* ===================================================================== *)

(** C7: when the service answers that the node does not exist, with
    [node: null], explore returns null; when the answer has a node,
    explore returns the answer as it is, and with it the node, the edges,
    the neighbors and the rules exactly as the service supplied them. *)
Theorem explore_null_or_verbatim (svc : Service) (w : World)
    (nodeId : string) (depth : option Q) :
  let args := explore_arguments nodeId (default (1 # 1) depth) in
  let answer := svc _ (calls w) qortex_explore args in
  (answer !! "node" = Some JSNull ->
   explore nodeId depth svc w = (Returned None, logged w "qortex_explore" args))
  /\
  (forall node, answer !! "node" = Some (JSObj node) ->
     exists result,
       explore nodeId depth svc w
       = (Returned (Some result), logged w "qortex_explore" args) /\
       result = answer /\
       get "node" result = JSObj node /\
       get "edges" result = get "edges" answer /\
       get "neighbors" result = get "neighbors" answer /\
       get "rules" result = get "rules" answer).
Proof.
  intros args answer. split.
  - intros Hnode. rewrite explore_run. fold args answer.
    unfold get. by rewrite Hnode.
  - intros node Hnode. exists answer. rewrite explore_run. fold args answer.
    unfold get. by rewrite Hnode.
Qed.

(** C7 on the two explore unit tests. *)
Lemma explore_null_or_verbatim_witness :
  (explore "nonexistent" None missing_service fresh).1 = Returned None /\
  exists result,
    (explore "sec:oauth" None found_service fresh).1 = Returned (Some result) /\
    get "node" result = JSObj node_oauth.
Proof.
  split.
  - rewrite (proj1 (explore_null_or_verbatim missing_service fresh
                      "nonexistent" None) eq_refl).
    reflexivity.
  - destruct (proj2 (explore_null_or_verbatim found_service fresh
                       "sec:oauth" None) node_oauth eq_refl)
      as (result & Hrun & _ & Hnode & _).
    exists result. by rewrite Hrun.
Defined.

(** C10: explore returns null exactly when the answer's node property is
    null.  An answer with no node property at all is not taken for a
    missing node: its [node] reads as undefined, which is not [=== null],
    and explore returns the answer object itself. *)
Theorem explore_absent_node_not_null (svc : Service) (w : World)
    (nodeId : string) (depth : option Q) :
  let answer :=
    svc _ (calls w) qortex_explore
        (explore_arguments nodeId (default (1 # 1) depth)) in
  ((explore nodeId depth svc w).1 = Returned None
   <-> answer !! "node" = Some JSNull) /\
  (answer !! "node" = None ->
   get "node" answer = JSUndefined /\
   (explore nodeId depth svc w).1 = Returned (Some answer)).
Proof.
  intros answer. rewrite explore_run; simpl. fold answer. unfold get.
  split.
  - destruct (answer !! "node") as [[]|]; simpl; split; by intros.
  - by intros ->.
Qed.

(** C10 on an answer that has edges but no node property. *)
Lemma explore_absent_node_not_null_witness :
  (explore "sec:oauth" None nodeless_service fresh).1
  = Returned (Some {["edges" := JSArr []]}).
Proof.
  apply (proj2 (explore_absent_node_not_null nodeless_service fresh
                  "sec:oauth" None)).
  reflexivity.
Defined.

(* ===================================================================== *)
(** ** Beyond the claims: sessions, configuration and the call log        *)
(* ===================================================================== *)

(** No operation touches the configuration or the embedding provider. *)
Lemma after_configuration (svc : Service) (w : World) (op : Operation) :
  embeddings (this (after op svc w)) = embeddings (this w) /\
  indexName (this (after op svc w)) = indexName (this w) /\
  domain (this (after op svc w)) = domain (this w) /\
  feedbackSource (this (after op svc w)) = feedbackSource (this w).
Proof.
  destruct (text_search_answer op svc w) as [answer|] eqn:Hanswer.
  - by rewrite (after_text_search _ _ _ _ Hanswer).
  - assert (is_text_search op = false) as Hop by by destruct op.
    by rewrite (after_frame _ _ _ Hop).
Qed.

(** The calls an operation adds to the log. *)
Lemma after_calls (svc : Service) (w : World) (op : Operation) :
  exists issued : list Call,
    calls (after op svc w) = (calls w ++ issued)%list /\
    (length issued <= 1)%nat /\
    Forall (fun c => tool_of op = Some (name c)) issued /\
    (issued = [] <->
     op = LastQueryId \/
     exists o, op = Feedback o /\
               (_lastQueryId (this w) = None \/
                _lastQueryId (this w) = Some EmptyString)).
Proof.
  assert (forall (n : string) (args : JSObject),
            tool_of op = Some n ->
            (forall o, op <> Feedback o) ->
            calls (after op svc w)
            = (calls w ++ [{| name := n; arguments := args |}])%list ->
            exists issued : list Call,
              calls (after op svc w) = (calls w ++ issued)%list /\
              (length issued <= 1)%nat /\
              Forall (fun c => tool_of op = Some (name c)) issued /\
              (issued = [] <->
               op = LastQueryId \/
               exists o, op = Feedback o /\
                         (_lastQueryId (this w) = None \/
                          _lastQueryId (this w) = Some EmptyString)))
    as Hone.
  { intros n args Htool Hfb Hcalls. eexists. split; [exact Hcalls|].
    split; [done|]. split; [by repeat constructor|].
    split; [done|]. intros [->|(o & -> & _)]; [done|]. by destruct (Hfb o). }
  destruct op.
  - eapply Hone; [done|done|]. cbn [after]. by rewrite addVectors_run.
  - eapply Hone; [done|done|]. cbn [after].
    by rewrite addDocuments_run, addVectors_run.
  - eapply Hone; [done|done|]. cbn [after].
    by rewrite similaritySearchVectorWithScore_run.
  - eapply Hone; [done|done|]. cbn [after].
    by rewrite similaritySearchWithScore_run.
  - eapply Hone; [done|done|]. cbn [after].
    by rewrite similaritySearch_run, similaritySearchWithScore_run.
  - eapply Hone; [done|done|]. cbn [after]. by rewrite explore_run.
  - eapply Hone; [done|done|]. cbn [after]. by rewrite getRules_run.
  - clear Hone. cbn [after]. rewrite feedback_run.
    destruct (truthy_string (_lastQueryId (this w))) eqn:Hlast.
    + eexists. split; [done|]. split; [done|]. split; [by repeat constructor|].
      split; [done|]. intros [|(o & _ & Hfalsy)]; [done|].
      apply truthy_string_false in Hfalsy. congruence.
    + exists []. split; [by rewrite app_nil_r|]. split; [simpl; lia|].
      split; [done|]. split; [|done]. intros _. right. eexists. split; [done|].
      by apply truthy_string_false.
  - clear Hone. cbn [after]. exists []. split; [by rewrite app_nil_r|].
    split; [simpl; lia|].
    split; [done|]. split; [|done]. intros _. by left.
Qed.

Lemma session_configuration (svc : Service) (ops : list Operation)
    (w : World) :
  embeddings (this (session ops svc w)) = embeddings (this w) /\
  indexName (this (session ops svc w)) = indexName (this w) /\
  domain (this (session ops svc w)) = domain (this w) /\
  feedbackSource (this (session ops svc w)) = feedbackSource (this w).
Proof.
  revert w. induction ops as [|op ops IH]; intros w; [done|].
  change (session (op :: ops) svc w) with (session ops svc (after op svc w)).
  destruct (IH (after op svc w)) as (-> & -> & -> & ->).
  apply after_configuration.
Qed.

Lemma session_calls (svc : Service) (ops : list Operation) (w : World) :
  exists issued : list Call,
    calls (session ops svc w) = (calls w ++ issued)%list /\
    (length issued <= length ops)%nat.
Proof.
  revert w. induction ops as [|op ops IH]; intros w.
  - exists []. by rewrite app_nil_r.
  - change (session (op :: ops) svc w)
      with (session ops svc (after op svc w)).
    destruct (IH (after op svc w)) as (later & -> & Hlater).
    destruct (after_calls svc w op) as (first & -> & Hfirst & _).
    exists (first ++ later)%list. rewrite <- app_assoc. split; [done|].
    rewrite length_app. simpl. lia.
Qed.

(** X1: the configuration is fixed for the life of an instance.  After
    any sequence of operations on a constructed store, whatever the
    service answers and whichever operations throw, the index name, the
    domain and the feedback source are still those the constructor set
    (the configured value, or "default", "default" and "langchain"), and
    the embedding provider is the one passed in. *)
Theorem configuration_fixed_for_life (svc : Service)
    (embed : list JSValue -> list (list Q)) (config : QortexVectorStoreConfig)
    (history : list Call) (ops : list Operation) :
  let w := session ops svc {| this := constructor embed config;
                              calls := history |} in
  embeddings (this w) = embed /\
  indexName (this w) = default "default" (cfg_indexName config) /\
  domain (this w) = default "default" (cfg_domain config) /\
  feedbackSource (this w) = default "langchain" (cfg_feedbackSource config).
Proof.
  intros w. subst w.
  by destruct (session_configuration svc ops
                 {| this := constructor embed config; calls := history |})
    as (-> & -> & -> & ->).
Qed.

(** X2: every public operation makes at most one remote call, on the
    remote operation of its own: the two inserts call the vector upsert,
    the vector search the vector query, the two text searches the text
    query, explore, getRules and feedback their namesakes.  The log of
    earlier calls is kept as it is.  The getter and a feedback that finds
    no query identifier (null or empty) make no call; every other
    operation except addDocuments, which awaits the embedding provider
    first, always makes its call. *)
Theorem operation_is_one_round_trip (svc : Service) (w : World)
    (op : Operation) :
  exists issued : list Call,
    calls (after op svc w) = (calls w ++ issued)%list /\
    (length issued <= 1)%nat /\
    Forall (fun c => tool_of op = Some (name c)) issued /\
    (op = LastQueryId \/
     (exists o, op = Feedback o /\
                (_lastQueryId (this w) = None \/
                 _lastQueryId (this w) = Some EmptyString)) ->
     issued = []) /\
    ((forall docs options, op <> AddDocuments docs options) ->
     issued = [] ->
     op = LastQueryId \/
     exists o, op = Feedback o /\
               (_lastQueryId (this w) = None \/
                _lastQueryId (this w) = Some EmptyString)).
Proof.
  destruct (after_calls svc w op) as (issued & Hlog & Hone & Htool & Hnone).
  exists issued. split; [exact Hlog|]. split; [exact Hone|].
  split; [exact Htool|]. split.
  - apply Hnone.
  - intros _. apply Hnone.
Qed.

(** X2 on a feedback issued on a fresh instance: nothing is called. *)
Lemma operation_is_one_round_trip_witness :
  calls (after (Feedback accept_i1) linked_rules_service fresh)
  = calls fresh.
Proof.
  destruct (operation_is_one_round_trip linked_rules_service fresh
              (Feedback accept_i1))
    as (issued & Hlog & _ & _ & Hnone & _).
  rewrite Hlog, Hnone.
  - reflexivity.
  - right. exists accept_i1. split; [reflexivity|by left].
Defined.

(** X3: over a whole session the log only grows, and by no more than one
    call per operation: the calls made before the session are a prefix of
    the log after it. *)
Theorem session_log_append_only (svc : Service) (ops : list Operation)
    (w : World) :
  calls w `prefix_of` calls (session ops svc w) /\
  (length (calls (session ops svc w)) <= length (calls w) + length ops)%nat.
Proof.
  destruct (session_calls svc ops w) as (issued & Hcalls & Hlength).
  rewrite Hcalls. split.
  - by exists issued.
  - rewrite length_app. lia.
Qed.

(* ===================================================================== *)
(** ** Beyond the claims: inserts                                         *)
(* ===================================================================== *)


(** X5: addDocuments embeds the page contents of the documents, in
    document order, with the instance's embedding provider, and upserts
    exactly the vectors it gets back.  It does not compare their number
    with the number of documents: the metadata array has one entry per
    document whatever the provider returned.  Its outcome and its effect
    are those of addVectors on these vectors. *)
Theorem addDocuments_embeds_then_upserts (svc : Service) (w : World)
    (docs : list Document) (options : option AddOptions) :
  let embedded := embeddings (this w) (pageContent <$> docs) in
  addDocuments docs options svc w = addVectors embedded docs options svc w /\
  exists args entries,
    (addDocuments docs options svc w).2
    = logged w "qortex_vector_upsert" args /\
    args !! "vectors" = Some (vectors embedded) /\
    args !! "metadata" = Some (JSArr entries) /\
    length entries = length docs /\
    args !! "index_name" = Some (JSStr (indexName (this w))).
Proof.
  intros embedded. rewrite addDocuments_run. fold embedded.
  split; [done|]. rewrite addVectors_run.
  exists (upsert_arguments (indexName (this w)) embedded docs options).
  exists (JSObj <$> (document_metadata <$> docs)).
  pose proof (upsert_arguments_lookup (indexName (this w)) embedded docs
                options) as (Hindex & Hvectors & Hmeta & _).
  split; [done|]. split; [exact Hvectors|]. split; [exact Hmeta|].
  split; [by rewrite !length_fmap|exact Hindex].
Qed.


Lemma own_ids_length (docs : list Document) :
  (length (own_ids docs) <= length docs)%nat /\
  (Exists (fun doc => ~ has_own_id doc) docs ->
   (length (own_ids docs) < length docs)%nat).
Proof.
  induction docs as [|doc docs [IHle IHlt]].
  - split; [done|]. by intros ?%Exists_nil.
  - unfold own_ids in *; cbn [omap list_omap].
    destruct (id doc) as [i|] eqn:Hid; simpl.
    + destruct (decide (i = EmptyString)) as [->|Hi]; simpl.
      * split; [lia|]. intros _. lia.
      * split; [lia|]. intros [Hdoc|Hrest]%Exists_cons.
        -- destruct Hdoc. exists i. by split.
        -- apply IHlt in Hrest. lia.
    + split; [lia|]. intros _. lia.
Qed.

(** X7: when the ids option is omitted and only some of the documents
    carry an id, the upsert is sent with fewer identifiers than
    documents: the documents without id are skipped in the identifier
    list, while the metadata array still has one entry per document. *)
Theorem partial_document_ids_fall_short (svc : Service) (w : World)
    (vecs : list (list Q)) (docs : list Document)
    (options : option AddOptions) :
  options ≫= ids = None ->
  Exists has_own_id docs ->
  Exists (fun doc => ~ has_own_id doc) docs ->
  exists args sent entries,
    (addVectors vecs docs options svc w).2
    = logged w "qortex_vector_upsert" args /\
    args !! "ids" = Some (strings sent) /\
    args !! "metadata" = Some (JSArr entries) /\
    length entries = length docs /\
    (0 < length sent < length docs)%nat.
Proof.
  intros Hoptions Hsome Hnot. rewrite addVectors_run. cbn [snd].
  pose proof (upsert_arguments_lookup (indexName (this w)) vecs docs options)
    as (_ & _ & Hmeta & Hids).
  rewrite Hoptions, filter_Boolean_own_ids in Hids. simpl in Hids.
  assert (own_ids docs <> []) as Hne.
  { intros Hnil. apply own_ids_nil in Hnil.
    apply Exists_exists in Hsome as (doc & Hin & Hdoc).
    rewrite Forall_forall in Hnil. by apply (Hnil doc). }
  eexists _, (own_ids docs), _. split; [done|].
  split; [by destruct (own_ids docs)|].
  split; [exact Hmeta|]. split; [by rewrite !length_fmap|].
  split.
  - destruct (own_ids docs); [done|simpl; lia].
  - by apply own_ids_length.
Qed.

(** X7 on two documents of which only the first carries an id. *)
Lemma partial_document_ids_fall_short_witness :
  exists args,
    (addVectors unit_vectors [doc_with_id; doc_oauth] None
       confirming_service fresh).2
    = logged fresh "qortex_vector_upsert" args /\
    exists sent,
      args !! "ids" = Some (strings sent) /\ (length sent < 2)%nat.
Proof.
  destruct (partial_document_ids_fall_short confirming_service fresh
              unit_vectors [doc_with_id; doc_oauth] None eq_refl)
    as (args & sent & entries & Hrun & Hids & _ & _ & _ & Hshort).
  - apply Exists_cons_hd. exists "d1". split; [reflexivity|discriminate].
  - apply Exists_cons_tl, Exists_cons_hd. intros (i & Hi & _). discriminate Hi.
  - exists args. split; [exact Hrun|]. exists sent. split; [exact Hids|].
    exact Hshort.
Defined.

(* ===================================================================== *)
(** ** Beyond the claims: what is stored comes back                       *)
(* ===================================================================== *)

Lemma document_metadata_text (doc : Document) :
  metadata doc !! "text" = None ->
  get "text" (document_metadata doc) = pageContent doc /\
  delete "text" (document_metadata doc) = metadata doc.
Proof.
  intros Htext. split.
  - unfold get. by rewrite document_metadata_lookup, Htext.
  - apply map_eq. intros key. destruct (decide (key = "text")) as [->|Hkey].
    + by rewrite lookup_delete_eq.
    + rewrite lookup_delete_ne by done. rewrite document_metadata_lookup.
      destruct (metadata doc !! key); [done|]. by rewrite decide_False.
Qed.

(** X8: what addVectors stores, the vector search gives back.  When a
    result item carries the metadata entry that the upsert built for a
    document with text content and no "text" property in its metadata,
    the document returned for it has that content and that metadata, with
    the item's score added under "score", and the item's id. *)
Theorem stored_document_round_trip (svc : Service) (w : World)
    (query : list Q) (k : Q) (filter_ : option JSObject)
    (out : list (Document * Q)) (i : nat) (item : VectorItem)
    (doc : Document) (content : string) :
  let answer :=
    svc _ (calls w) qortex_vector_query
        (vector_query_arguments (indexName (this w)) query k filter_) in
  (similaritySearchVectorWithScore query k filter_ svc w).1 = Returned out ->
  default [] (vq_results answer) !! i = Some item ->
  vi_metadata item = Some (document_metadata doc) ->
  pageContent doc = JSStr content ->
  metadata doc !! "text" = None ->
  out !! i =
  Some (new_Document (JSStr content)
                     (<["score" := JSNum (vi_score item)]> (metadata doc))
                     (Some (vi_id item)),
        vi_score item).
Proof.
  intros answer. rewrite similaritySearchVectorWithScore_run. cbn [fst].
  fold answer. destruct (truthy_string (vq_error answer)); [done|].
  intros [= <-] Hitem Hstored Hcontent Htext.
  rewrite list_lookup_fmap, Hitem. cbn [fmap option_fmap option_map].
  unfold vector_item_to_pair. rewrite Hstored.
  cbv zeta. cbn [default from_option Datatypes.id].
  destruct (document_metadata_text doc Htext) as [-> ->].
  by rewrite Hcontent.
Qed.

(** X8 on the first item of a stored result list. *)
Lemma stored_document_round_trip_witness :
  exists out,
    (similaritySearchVectorWithScore [1 # 1; 0 # 1] (2 # 1) None
       stored_service fresh).1 = Returned out /\
    out !! 0%nat =
    Some (new_Document (JSStr "OAuth2 auth")
            (<["score" := JSNum (95 # 100)]> {["source" := JSStr "docs"]})
            (Some "v1"),
          95 # 100).
Proof.
  exists (vector_item_to_pair <$> [stored_oauth; stored_with_text]).
  split; [reflexivity|].
  apply (stored_document_round_trip stored_service fresh
           [1 # 1; 0 # 1] (2 # 1) None _ 0 stored_oauth doc_oauth
           "OAuth2 auth"); reflexivity.
Defined.

(** X9: the round trip loses the content of a document whose metadata
    has a "text" string of its own.  The document returned for its stored
    entry has the metadata's text as content, whatever the page content
    was, and its metadata has no "text" property any more. *)
Theorem stored_text_collision_loses_content (svc : Service) (w : World)
    (query : list Q) (k : Q) (filter_ : option JSObject)
    (out : list (Document * Q)) (i : nat) (item : VectorItem)
    (doc : Document) (text : string) :
  let answer :=
    svc _ (calls w) qortex_vector_query
        (vector_query_arguments (indexName (this w)) query k filter_) in
  (similaritySearchVectorWithScore query k filter_ svc w).1 = Returned out ->
  default [] (vq_results answer) !! i = Some item ->
  vi_metadata item = Some (document_metadata doc) ->
  metadata doc !! "text" = Some (JSStr text) ->
  out !! i =
  Some (new_Document (JSStr text)
                     (<["score" := JSNum (vi_score item)]>
                        (delete "text" (metadata doc)))
                     (Some (vi_id item)),
        vi_score item).
Proof.
  intros answer. rewrite similaritySearchVectorWithScore_run. cbn [fst].
  fold answer. destruct (truthy_string (vq_error answer)); [done|].
  intros [= <-] Hitem Hstored Htext.
  rewrite list_lookup_fmap, Hitem. cbn [fmap option_fmap option_map].
  unfold vector_item_to_pair. rewrite Hstored.
  cbv zeta. cbn [default from_option Datatypes.id].
  assert (document_metadata doc = metadata doc) as ->.
  { apply map_eq. intros key. rewrite document_metadata_lookup.
    destruct (metadata doc !! key) eqn:Hkey; [done|].
    destruct (decide (key = "text")) as [->|]; [congruence|done]. }
  unfold get. by rewrite Htext.
Qed.

(** X9 on the stored entry of the document with content "page content"
    and metadata text "metadata text". *)
Lemma stored_text_collision_loses_content_witness :
  exists out,
    (similaritySearchVectorWithScore [1 # 1; 0 # 1] (2 # 1) None
       stored_service fresh).1 = Returned out /\
    out !! 1%nat =
    Some (new_Document (JSStr "metadata text")
            {["score" := JSNum (80 # 100)]} (Some "v2"),
          80 # 100).
Proof.
  exists (vector_item_to_pair <$> [stored_oauth; stored_with_text]).
  split; [reflexivity|].
  apply (stored_text_collision_loses_content stored_service fresh
           [1 # 1; 0 # 1] (2 # 1) None _ 1 stored_with_text doc_with_text
           "metadata text"); reflexivity.
Defined.

(* ===================================================================== *)
(** ** Beyond the claims: the text-level search                           *)
(* ===================================================================== *)

Lemma query_item_meta_other (result : QortexQueryResult)
    (item : QortexQueryItem) (key : string) :
  key <> "rules" ->
  metadata (query_item_to_pair result item).1 !! key =
  match item_metadata item !! key with
  | Some v => Some v
  | None =>
      object [("score", JSNum (item_score item));
              ("domain", JSStr (item_domain item));
              ("node_id", JSStr (item_node_id item))] !! key
  end.
Proof.
  intros Hkey. rewrite <- spread_lookup.
  unfold query_item_to_pair; cbn [fst metadata].
  destruct (qr_rules result) as [rules|]; [|done].
  destruct (0 <? length rules)%nat; [|done].
  destruct (0 <? length _)%nat; [|done].
  by rewrite lookup_insert_ne.
Qed.

(** X10: a text-level search returns, for each item of the answer, a
    document with the item's content and id.  Its metadata holds the
    item's own metadata unchanged (apart from "rules"), so a property of
    the item named "score", "domain" or "node_id" takes precedence over
    the adapter's; the item's score, domain and node id are filled in
    under these names only where the item's metadata has no such
    property. *)
Theorem text_search_document_shape (svc : Service) (w : World)
    (query : string) (k : option Q) (filter_ : option JSObject) :
  let answer := query_answer svc w query k filter_ in
  exists out,
    (similaritySearchWithScore query k filter_ svc w).1 = Returned out /\
    forall i item,
      default [] (qr_items answer) !! i = Some item ->
      exists doc,
        out !! i = Some (doc, item_score item) /\
        pageContent doc = JSStr (item_content item) /\
        id doc = Some (item_id item) /\
        (forall key v, key <> "rules" ->
                       item_metadata item !! key = Some v ->
                       metadata doc !! key = Some v) /\
        (item_metadata item !! "score" = None ->
         metadata doc !! "score" = Some (JSNum (item_score item))) /\
        (item_metadata item !! "domain" = None ->
         metadata doc !! "domain" = Some (JSStr (item_domain item))) /\
        (item_metadata item !! "node_id" = None ->
         metadata doc !! "node_id" = Some (JSStr (item_node_id item))) /\
        (forall key, key <> "rules" -> key <> "score" -> key <> "domain" ->
                     key <> "node_id" ->
                     metadata doc !! key = item_metadata item !! key).
Proof.
  intros answer. rewrite similaritySearchWithScore_run. fold answer.
  eexists. split; [done|]. intros i item Hitem.
  exists (query_item_to_pair answer item).1.
  split; [by rewrite list_lookup_fmap, Hitem|].
  split; [done|]. split; [done|].
  split; [|split; [|split; [|split]]].
  - intros key v Hkey Hv. rewrite query_item_meta_other by done.
    by rewrite Hv.
  - intros Hnone. rewrite query_item_meta_other by done. by rewrite Hnone.
  - intros Hnone. rewrite query_item_meta_other by done. by rewrite Hnone.
  - intros Hnone. rewrite query_item_meta_other by done. by rewrite Hnone.
  - intros key Hrules Hscore Hdomain Hnode.
    rewrite query_item_meta_other by done.
    destruct (item_metadata item !! key); [done|].
    unfold object; simpl. by rewrite !lookup_insert_ne.
Qed.

(** X10 on an item whose own metadata has a "score" property. *)
Lemma text_search_document_shape_witness :
  exists out doc,
    (similaritySearchWithScore "tokens" None None scored_service fresh).1
    = Returned out /\
    out !! 0%nat = Some (doc, 85 # 100) /\
    metadata doc !! "score" = Some (JSStr "high") /\
    metadata doc !! "node_id" = Some (JSStr "sec:jwt").
Proof.
  destruct (text_search_document_shape scored_service fresh "tokens"
              None None) as (out & Hrun & Hitems).
  destruct (Hitems 0%nat item_with_score eq_refl)
    as (doc & Hdoc & _ & _ & Hown & _ & _ & Hnode & _).
  exists out, doc. split; [exact Hrun|]. split; [exact Hdoc|].
  split; [by apply Hown|by apply Hnode].
Defined.

(** X11: how the text query's arguments are chosen.  The query text goes
    under "context", the mode is always "auto", top_k is the [k] given or
    4.  min_confidence is always a number: the filter's when the filter
    has a number there, 0 otherwise.  The domains are the filter's
    "domains" whenever that is an array, even an empty one, and the
    one-element list of the instance's domain when there is no filter or
    the filter has no "domains". *)
Theorem text_query_arguments_chosen (svc : Service) (w : World)
    (query : string) (k : option Q) (filter_ : option JSObject) :
  exists args,
    (similaritySearchWithScore query k filter_ svc w).2.(calls)
    = (calls w ++ [{| name := "qortex_query"; arguments := args |}])%list /\
    args !! "context" = Some (JSStr query) /\
    args !! "mode" = Some (JSStr "auto") /\
    args !! "top_k" = Some (JSNum (default (4 # 1) k)) /\
    args !! "min_confidence" =
      Some (JSNum match filter_ ≫= (.!! "min_confidence") with
                  | Some (JSNum q) => q
                  | _ => 0 # 1
                  end) /\
    (forall given, filter_ ≫= (.!! "domains") = Some (JSArr given) ->
                   args !! "domains" = Some (JSArr given)) /\
    (filter_ ≫= (.!! "domains") = None ->
     args !! "domains" = Some (JSArr [JSStr (domain (this w))])).
Proof.
  rewrite similaritySearchWithScore_run. cbn [snd calls].
  eexists. split; [done|].
  unfold query_arguments, object; simpl.
  split; [done|]. split; [done|]. split; [done|].
  split; [|split].
  - rewrite lookup_insert_ne, lookup_insert_eq by done. f_equal.
    destruct filter_ as [f|]; simpl; [|done]. unfold get.
    by destruct (f !! "min_confidence") as [[]|].
  - intros given Hgiven.
    rewrite !lookup_insert_ne, lookup_insert_eq by done.
    destruct filter_ as [f|]; simpl in *; [|done]. unfold get.
    by rewrite Hgiven.
  - intros Hnone.
    rewrite !lookup_insert_ne, lookup_insert_eq by done.
    destruct filter_ as [f|]; simpl in *; [|done]. unfold get.
    by rewrite Hnone.
Qed.

(** X11 with a filter whose "domains" is the empty array. *)
Lemma text_query_arguments_chosen_witness :
  exists args,
    calls (similaritySearchWithScore "auth" None
             (Some {["domains" := JSArr []]}) linked_rules_service fresh).2
    = [{| name := "qortex_query"; arguments := args |}] /\
    args !! "domains" = Some (JSArr []).
Proof.
  destruct (text_query_arguments_chosen linked_rules_service fresh "auth"
              None (Some {["domains" := JSArr []]}))
    as (args & Hcalls & _ & _ & _ & _ & Hgiven & _).
  exists args. split; [exact Hcalls|]. by apply Hgiven.
Defined.

(** X12: similaritySearch is similaritySearchWithScore with the scores
    dropped: the same documents in the same order, the same single text
    query, the same query identifier stored. *)
Theorem similaritySearch_drops_scores (svc : Service) (w : World)
    (query : string) (k : option Q) (filter_ : option JSObject) :
  exists pairs w',
    similaritySearchWithScore query k filter_ svc w = (Returned pairs, w') /\
    similaritySearch query k filter_ svc w = (Returned pairs.*1, w') /\
    length pairs
    = length (default [] (qr_items (query_answer svc w query k filter_))).
Proof.
  rewrite similaritySearchWithScore_run. eexists _, _. split; [done|].
  split; [by destruct k|]. by rewrite length_fmap.
Qed.

(* ===================================================================== *)
(** ** Beyond the claims: feedback, rules, factories, embeddings          *)
(* ===================================================================== *)

Lemma feedback_rounds_without_id (svc : Service) (w : World)
    (rounds : list (gmap string string)) (v : World) :
  this v = this w ->
  truthy_string (_lastQueryId (this w)) = false ->
  session (Feedback <$> rounds) svc v = v.
Proof.
  revert v. induction rounds as [|o rounds IH]; intros v Hv Hfalsy; [done|].
  change (session (Feedback <$> o :: rounds) svc v)
    with (session (Feedback <$> rounds) svc (feedback o svc v).2).
  rewrite feedback_run, Hv, Hfalsy. by apply IH.
Qed.

Lemma feedback_rounds_with_id (svc : Service) (w : World)
    (rounds : list (gmap string string)) (v : World) :
  this v = this w ->
  truthy_string (_lastQueryId (this w)) = true ->
  calls (session (Feedback <$> rounds) svc v)
  = (calls v ++ (feedback_call w <$> rounds))%list.
Proof.
  revert v. induction rounds as [|o rounds IH]; intros v Hv Htruthy.
  - by rewrite app_nil_r.
  - change (session (Feedback <$> o :: rounds) svc v)
      with (session (Feedback <$> rounds) svc (feedback o svc v).2).
    rewrite feedback_run, Hv, Htruthy. cbn [snd].
    rewrite IH by done. cbn [logged calls fmap list_fmap].
    by rewrite <- app_assoc.
Qed.

(** X13: feedback does not use up the query identifier.  Any number of
    feedback calls in a row leave the instance as it is; when it holds a
    non-empty identifier each of them issues its own qortex_feedback
    call, in order, all tagged with that same identifier and the same
    source; when it holds none, none of them calls the service. *)
Theorem feedback_keeps_query_id (svc : Service) (w : World)
    (rounds : list (gmap string string)) :
  let w' := session (Feedback <$> rounds) svc w in
  this w' = this w /\
  match _lastQueryId (this w) with
  | Some q =>
      if decide (q = EmptyString) then calls w' = calls w
      else
        calls w' = (calls w ++ (feedback_call w <$> rounds))%list /\
        Forall (fun c => name c = "qortex_feedback" /\
                         arguments c !! "query_id" = Some (JSStr q))
               (feedback_call w <$> rounds)
  | None => calls w' = calls w
  end.
Proof.
  intros w'. subst w'. split.
  { apply session_frame, Forall_fmap, Forall_forall. by intros. }
  destruct (_lastQueryId (this w)) as [q|] eqn:Hlast.
  - destruct (decide (q = EmptyString)) as [->|Hq].
    + rewrite (feedback_rounds_without_id svc w); [done|done|].
      by rewrite Hlast.
    + assert (truthy_string (_lastQueryId (this w)) = true) as Htruthy.
      { rewrite Hlast. apply truthy_string_true. by exists q. }
      split; [by apply feedback_rounds_with_id|].
      apply Forall_fmap, Forall_forall. intros o _. unfold feedback_call.
      by rewrite Hlast.
  - rewrite (feedback_rounds_without_id svc w); [done|done|].
    by rewrite Hlast.
Qed.

Lemma texts_to_documents_lookup (texts : list string) (metadatas : Metadatas)
    (i : nat) (text : string) :
  texts !! i = Some text ->
  texts_to_documents texts metadatas !! i =
  Some (new_Document (JSStr text)
          match metadatas with
          | MetadataArray metas => default ∅ (metas !! i)
          | MetadataObject meta => meta
          end
          None).
Proof.
  intros Htext. unfold texts_to_documents.
  rewrite list_lookup_imap, Htext. simpl. do 2 f_equal.
  destruct metadatas as [metas|meta]; [done|].
  by rewrite list_lookup_fmap, Htext.
Qed.

Lemma texts_to_documents_no_ids (texts : list string) (metadatas : Metadatas) :
  own_ids (texts_to_documents texts metadatas) = [].
Proof.
  apply own_ids_nil, Forall_forall. intros doc Hdoc.
  apply list_elem_of_lookup in Hdoc as (i & Hi).
  unfold texts_to_documents in Hi. rewrite list_lookup_imap in Hi.
  destruct (texts !! i) as [text|]; [|done]. simpl in Hi.
  injection Hi as <-. by intros (j & [=] & _).
Qed.

Lemma factory_run (svc : Service) (docs : list Document)
    (embed : list JSValue -> list (list Q))
    (config : QortexVectorStoreConfig) (connection : Outcome unit) :
  let w0 := {| this := constructor embed config; calls := [] |} in
  let args :=
    upsert_arguments (indexName (this w0)) (embed (pageContent <$> docs))
                     docs None in
  let answer := svc _ [] qortex_vector_upsert args in
  fromDocuments docs embed config connection svc =
  match connection with
  | Thrown e => (Thrown e, w0)
  | Returned _ =>
      (if truthy_string (upsert_error answer)
       then Thrown (new_Error (default EmptyString (upsert_error answer)))
       else Returned (constructor embed config),
       logged w0 "qortex_vector_upsert" args)
  end.
Proof.
  intros w0 args answer.
  unfold fromDocuments, connect, bind, read. fold w0.
  destruct connection as [[]|e]; [|done].
  rewrite addDocuments_run, addVectors_run.
  change (embeddings (this w0)) with embed.
  change (calls w0) with (@nil Call). fold args answer.
  by destruct (truthy_string (upsert_error answer)).
Qed.

(** X15: fromTexts makes at most one remote call, and none when the
    connection cannot be established: the connection failure is thrown
    as it is.  A call it makes is an upsert on the configured index,
    without identifier list, carrying the vectors the embedding provider
    returned for the texts in order, and a metadata array with one entry
    per text: the entry of the i-th text has the properties of its
    metadata object (the one object given for all texts, or the i-th of
    the array, none when the array is too short) and the text under
    "text" unless that object has a "text" of its own; metadata objects
    beyond the number of texts are ignored. *)
Theorem fromTexts_upserts_texts (svc : Service) (texts : list string)
    (metadatas : Metadatas) (embed : list JSValue -> list (list Q))
    (config : QortexVectorStoreConfig) (connection : Outcome unit) :
  let run := fromTexts texts metadatas embed config connection svc in
  (length (calls run.2) <= 1)%nat /\
  (forall e, connection = Thrown e -> run.1 = Thrown e /\ calls run.2 = []) /\
  forall c,
    c ∈ calls run.2 ->
    name c = "qortex_vector_upsert" /\
    arguments c !! "index_name"
    = Some (JSStr (default "default" (cfg_indexName config))) /\
    arguments c !! "vectors" = Some (vectors (embed (JSStr <$> texts))) /\
    arguments c !! "ids" = Some JSUndefined /\
    exists entries,
      arguments c !! "metadata" = Some (JSArr (JSObj <$> entries)) /\
      length entries = length texts /\
      forall i text,
        texts !! i = Some text ->
        exists entry,
          entries !! i = Some entry /\
          forall key,
            entry !! key =
            match match metadatas with
                  | MetadataArray metas => default ∅ (metas !! i)
                  | MetadataObject meta => meta
                  end !! key with
            | Some v => Some v
            | None => if decide (key = "text") then Some (JSStr text)
                      else None
            end.
Proof.
  intros run. subst run.
  set (docs := texts_to_documents texts metadatas).
  change (fromTexts texts metadatas embed config connection svc)
    with (fromDocuments docs embed config connection svc).
  rewrite factory_run.
  destruct connection as [[]|e]; cbn [fst snd calls logged app].
  2:{ split; [simpl; lia|]. split; [by intros e' [= <-]|].
      by intros c ?%elem_of_nil. }
  split; [done|]. split; [done|].
  intros c ->%list_elem_of_singleton. cbn [name arguments].
  assert (pageContent <$> docs = JSStr <$> texts) as ->.
  { apply list_eq. intros i. subst docs. unfold texts_to_documents.
    rewrite !list_lookup_fmap, list_lookup_imap.
    by destruct (texts !! i). }
  pose proof (upsert_arguments_lookup
                (indexName (constructor embed config))
                (embed (JSStr <$> texts)) docs None)
    as (Hindex & Hvectors & Hmeta & Hids).
  simpl in Hids. rewrite filter_Boolean_own_ids in Hids.
  subst docs. rewrite texts_to_documents_no_ids in Hids.
  split; [done|]. split; [exact Hindex|]. split; [exact Hvectors|].
  split; [exact Hids|].
  exists (document_metadata <$> texts_to_documents texts metadatas).
  split; [exact Hmeta|]. split.
  { rewrite length_fmap. unfold texts_to_documents. by rewrite length_imap. }
  intros i text Htext. eexists. split.
  - by rewrite list_lookup_fmap, (texts_to_documents_lookup _ _ _ _ Htext).
  - intros key. by rewrite document_metadata_lookup.
Qed.

(** X15 on two texts with one shared metadata object, and on a
    connection that could not be established. *)
Lemma fromTexts_upserts_texts_witness :
  (fromTexts ["Hello world"; "Goodbye world"]
     (MetadataObject {["src" := JSStr "test"]})
     (embeddings test_store) default_config refused confirming_service).1
  = Thrown (new_Error "Connection closed") /\
  exists c,
    calls (fromTexts ["Hello world"; "Goodbye world"]
             (MetadataObject {["src" := JSStr "test"]})
             (embeddings test_store) default_config
             (Returned tt) confirming_service).2 = [c] /\
    name c = "qortex_vector_upsert" /\
    arguments c !! "ids" = Some JSUndefined.
Proof.
  split.
  - apply (proj1 (proj2 (fromTexts_upserts_texts confirming_service
                           ["Hello world"; "Goodbye world"]
                           (MetadataObject {["src" := JSStr "test"]})
                           (embeddings test_store) default_config refused))
             (new_Error "Connection closed") eq_refl).
  - eexists. split; [reflexivity|].
    destruct (proj2 (proj2 (fromTexts_upserts_texts confirming_service
                              ["Hello world"; "Goodbye world"]
                              (MetadataObject {["src" := JSStr "test"]})
                              (embeddings test_store) default_config
                              (Returned tt)))
                _ (proj2 (list_elem_of_singleton _ _) eq_refl))
      as (Hname & _ & _ & Hids & _).
    split; [exact Hname|exact Hids].
Defined.

(** X16: a static factory hands back a store only after the connection
    was established and its one upsert was answered without error text,
    and the store it hands back is the one it constructed: the configured
    (or default) names, the embedding provider passed in, no query
    identifier.  When the connection cannot be established the factory
    throws the connection failure and makes no call.  fromTexts is
    fromDocuments on the documents built from the texts. *)
Theorem factory_returns_fresh_store (svc : Service) (docs : list Document)
    (embed : list JSValue -> list (list Q))
    (config : QortexVectorStoreConfig) (connection : Outcome unit) :
  let run := fromDocuments docs embed config connection svc in
  let answer :=
    svc _ [] qortex_vector_upsert
        (upsert_arguments (default "default" (cfg_indexName config))
           (embed (pageContent <$> docs)) docs None) in
  (forall store,
     run.1 = Returned store ->
     store = constructor embed config /\
     _lastQueryId store = None /\
     connection = Returned tt /\
     (upsert_error answer = None \/ upsert_error answer = Some EmptyString) /\
     exists args,
       calls run.2
       = [{| name := "qortex_vector_upsert"; arguments := args |}]) /\
  (forall e, connection = Thrown e -> run.1 = Thrown e /\ calls run.2 = []) /\
  forall texts metadatas,
    fromTexts texts metadatas embed config connection svc
    = fromDocuments (texts_to_documents texts metadatas) embed config
                    connection svc.
Proof.
  intros run answer. subst run. rewrite factory_run.
  change (indexName (this {| this := constructor embed config;
                             calls := [] |}))
    with (default "default" (cfg_indexName config)).
  fold answer. split; [|split; [|done]].
  - intros store. destruct connection as [[]|e]; [|done]. cbn [fst snd].
    destruct (truthy_string (upsert_error answer)) eqn:Herror; [done|].
    intros [= <-]. split; [done|]. split; [done|]. split; [done|].
    split; [by apply truthy_string_false|]. by eexists.
  - by intros e ->.
Qed.

(** X16 on the two fixtures: a refused connection, and an upsert that
    the service confirms. *)
Lemma factory_returns_fresh_store_witness :
  (fromDocuments [doc_oauth] (embeddings test_store) default_config
     refused confirming_service).1 = Thrown (new_Error "Connection closed") /\
  (fromDocuments [doc_oauth] (embeddings test_store) default_config
     (Returned tt) confirming_service).1
  = Returned (constructor (embeddings test_store) default_config) /\
  exists args,
    calls (fromDocuments [doc_oauth] (embeddings test_store) default_config
             (Returned tt) confirming_service).2
    = [{| name := "qortex_vector_upsert"; arguments := args |}].
Proof.
  split.
  - apply (proj1 (proj2 (factory_returns_fresh_store confirming_service
                           [doc_oauth] (embeddings test_store)
                           default_config refused))
             (new_Error "Connection closed") eq_refl).
  - split; [reflexivity|].
    apply (proj1 (factory_returns_fresh_store confirming_service
                    [doc_oauth] (embeddings test_store) default_config
                    (Returned tt))
             (constructor (embeddings test_store) default_config) eq_refl).
Defined.

(** X17: the embeddings wrapper hands the texts to the model as they are,
    and embeds a query as a batch of one: embedQuery is the first vector
    the model returns for the one-element list, undefined exactly when
    the model returns none; any further vectors are ignored. *)
Theorem embedQuery_is_first_of_batch (model : QortexEmbeddings.Model)
    (text : string) :
  QortexEmbeddings.embedQuery model text
  = head (QortexEmbeddings.embedDocuments model [text]) /\
  (QortexEmbeddings.embedQuery model text = None
   <-> QortexEmbeddings.embedDocuments model [text] = []) /\
  (forall v rest,
     QortexEmbeddings.embedDocuments model [text] = v :: rest ->
     QortexEmbeddings.embedQuery model text = Some v).
Proof.
  unfold QortexEmbeddings.embedQuery, QortexEmbeddings.embedDocuments.
  destruct (model [text]) as [|v rest]; simpl.
  - repeat split; done.
  - split; [done|]. split; [done|]. by intros v' rest' [= <- <-].
Qed.

(** X17 on a model that embeds every text as the same vector. *)
Lemma embedQuery_is_first_of_batch_witness :
  QortexEmbeddings.embedQuery constant_model "hello" = Some [1 # 2; 1 # 2].
Proof.
  apply (proj2 (proj2 (embedQuery_is_first_of_batch constant_model "hello"))
           [1 # 2; 1 # 2] []).
  reflexivity.
Defined.
